(** * philex: the Broadway Lounge site backend (main.py)

    A shallow embedding of [main.py]: the content formatter, the page
    renderer, the two form handlers and the two response middlewares,
    followed by the properties the specification states about them.

    Strings are Stdlib strings (sequences of bytes); Python [int] is [Z];
    a [dict] that is iterated is an association list in insertion order;
    response headers are the ordered, lower-cased list that Starlette's
    [MutableHeaders] keeps.  The handlers print and enqueue background
    tasks: both effects are threaded through a small state monad. *)

From Stdlib Require Import String Ascii List ZArith Lia Bool.
From Stdlib Require Import Numbers.DecimalString.
Import ListNotations.

Open Scope string_scope.
Open Scope Z_scope.

(* ===================================================================== *)
(** ** Python's [str] operations used by main.py *)
(* ===================================================================== *)

Module PyStr.

(** [c in chars] for a one-character [c]. *)
Fixpoint mem (c : ascii) (chars : string) : bool :=
  match chars with
  | EmptyString => false
  | String a rest => if Ascii.eqb a c then true else mem c rest
  end.

(** [s.lstrip(chars)] *)
Fixpoint lstrip (chars s : string) : string :=
  match s with
  | EmptyString => EmptyString
  | String a rest => if mem a chars then lstrip chars rest else s
  end.

(** [s.rstrip(chars)] *)
Fixpoint rstrip (chars s : string) : string :=
  match s with
  | EmptyString => EmptyString
  | String a rest =>
      match rstrip chars rest with
      | EmptyString => if mem a chars then EmptyString else String a EmptyString
      | r => String a r
      end
  end.

(** [s.strip(chars)] *)
Definition strip (chars s : string) : string := rstrip chars (lstrip chars s).

(** [a or b] on strings: the empty string is falsy. *)
Definition or_else (a b : string) : string :=
  match a with
  | EmptyString => b
  | _ => a
  end.

Definition is_upper (c : ascii) : bool :=
  let n := nat_of_ascii c in (Nat.leb 65 n && Nat.leb n 90)%bool.

Definition is_lower (c : ascii) : bool :=
  let n := nat_of_ascii c in (Nat.leb 97 n && Nat.leb n 122)%bool.

Definition is_cased (c : ascii) : bool := (is_upper c || is_lower c)%bool.

Definition to_upper (c : ascii) : ascii :=
  if is_lower c then ascii_of_nat (nat_of_ascii c - 32) else c.

Definition to_lower (c : ascii) : ascii :=
  if is_upper c then ascii_of_nat (nat_of_ascii c + 32) else c.

(** [s.lower()] on ASCII text (header names). *)
Fixpoint lower (s : string) : string :=
  match s with
  | EmptyString => EmptyString
  | String a rest => String (to_lower a) (lower rest)
  end.

(** [s.title()] on ASCII text: a cased character is upper-cased when the
    previous character is uncased (or there is none) and lower-cased
    otherwise; uncased characters are kept. *)
Fixpoint title_from (previous_is_cased : bool) (s : string) : string :=
  match s with
  | EmptyString => EmptyString
  | String a rest =>
      if is_cased a
      then String (if previous_is_cased then to_lower a else to_upper a)
                  (title_from true rest)
      else String a (title_from false rest)
  end.

Definition title (s : string) : string := title_from false s.

(** [str(n)] for an [int]. *)
Definition of_int (n : Z) : string := NilZero.string_of_int (Z.to_int n).

(** [sep.join(parts)] with the empty separator. *)
Fixpoint join (parts : list string) : string :=
  match parts with
  | [] => EmptyString
  | p :: rest => p ++ join rest
  end.

Definition len (s : string) : Z := Z.of_nat (String.length s).

(** [s[i:j]] for [0 <= i]. *)
Definition slice (s : string) (i j : Z) : string :=
  substring (Z.to_nat i) (Z.to_nat (j - i)) s.

(** [s[i:]] for [0 <= i]. *)
Definition slice_from (s : string) (i : Z) : string := slice s i (len s).

(** [s.rfind(c)] for a one-character [c]: the highest index, or [-1]. *)
Fixpoint rfind_at (c : ascii) (s : string) (i found : Z) : Z :=
  match s with
  | EmptyString => found
  | String a rest => rfind_at c rest (i + 1) (if Ascii.eqb a c then i else found)
  end.

Definition rfind (c : ascii) (s : string) : Z := rfind_at c s 0 (-1).

(** The [while filenameIndex < dotIndex] loop of [genericpath._splitext]:
    [Some] is its [return] from inside the loop, [None] is falling out of
    it.  The loop runs at most [dotIndex - filenameIndex] times, which is
    the [rounds] it is started with. *)
Fixpoint splitext_scan (p : string) (dotIndex filenameIndex : Z) (rounds : nat)
  : option (string * string) :=
  match rounds with
  | O => None
  | S rounds' =>
      if negb (String.eqb (slice p filenameIndex (filenameIndex + 1)) ".")
      then Some (slice p 0 dotIndex, slice_from p dotIndex)
      else splitext_scan p dotIndex (filenameIndex + 1) rounds'
  end.

(** [os.path.splitext(p)] (posixpath: separator [/], no alternative
    separator, extension separator [.]). *)
Definition splitext (p : string) : string * string :=
  let sepIndex := rfind "/"%char p in
  let dotIndex := rfind "."%char p in
  if sepIndex <? dotIndex
  then
    let filenameIndex := sepIndex + 1 in
    match splitext_scan p dotIndex filenameIndex (Z.to_nat (dotIndex - filenameIndex)) with
    | Some r => r
    | None => (p, EmptyString)
    end
  else (p, EmptyString).

(** [s.splitlines()] on UTF-8 text.  A line ends at LF, CR, CR LF, VT, FF,
    FS, GS, RS, NEL (bytes 194 133), LINE SEPARATOR and PARAGRAPH SEPARATOR
    (bytes 226 128 168 and 226 128 169); what follows the last line end is a
    line only when it is not empty.  [line] is the line read so far. *)
Fixpoint splitlines_from (line s : string) : list string :=
  match s with
  | EmptyString =>
      match line with
      | EmptyString => []
      | _ => [line]
      end
  | String c rest =>
      if Ascii.eqb c "013" then
        match rest with
        | String d rest' =>
            if Ascii.eqb d "010" then line :: splitlines_from EmptyString rest'
            else line :: splitlines_from EmptyString rest
        | EmptyString => line :: splitlines_from EmptyString rest
        end
      else if (Ascii.eqb c "010" || Ascii.eqb c "011" || Ascii.eqb c "012" ||
               Ascii.eqb c "028" || Ascii.eqb c "029" || Ascii.eqb c "030")%bool then
        line :: splitlines_from EmptyString rest
      else if Ascii.eqb c "194" then
        match rest with
        | String d rest' =>
            if Ascii.eqb d "133" then line :: splitlines_from EmptyString rest'
            else splitlines_from (line ++ String c EmptyString) rest
        | EmptyString => splitlines_from (line ++ String c EmptyString) rest
        end
      else if Ascii.eqb c "226" then
        match rest with
        | String d (String e rest') =>
            if (Ascii.eqb d "128" && (Ascii.eqb e "168" || Ascii.eqb e "169"))%bool
            then line :: splitlines_from EmptyString rest'
            else splitlines_from (line ++ String c EmptyString) rest
        | _ => splitlines_from (line ++ String c EmptyString) rest
        end
      else splitlines_from (line ++ String c EmptyString) rest
  end.

Definition splitlines (s : string) : list string := splitlines_from EmptyString s.

End PyStr.

(* ===================================================================== *)
(** ** Values, exceptions and effects *)
(* ===================================================================== *)

(** The Python values that reach an f-string in main.py. *)
Inductive PyVal : Type :=
| PyNone
| PyStr (s : string)
| PyInt (n : Z).

(** [str(v)], which is what [f"{v}"] inserts. *)
Definition py_str (v : PyVal) : string :=
  match v with
  | PyNone => "None"
  | PyStr s => s
  | PyInt n => PyStr.of_int n
  end.

Definition of_optional (o : option string) : PyVal :=
  match o with
  | None => PyNone
  | Some s => PyStr s
  end.

Inductive PyExn : Type :=
| AttributeError (message : string)
| ValueError (message : string)
| IndexError (message : string).

(** The outcome of evaluating an expression that may raise. *)
Inductive Outcome (A : Type) : Type :=
| Returns (a : A)
| Raises (e : PyExn).
Arguments Returns {A} a.
Arguments Raises {A} e.

Definition and_then {A B : Type} (o : Outcome A) (k : A -> Outcome B) : Outcome B :=
  match o with
  | Returns a => k a
  | Raises e => Raises e
  end.

(** [try: body / except: handler] with a bare [except]. *)
Definition try_except {A : Type} (body : Outcome A) (handler : A) : A :=
  match body with
  | Returns a => a
  | Raises _ => handler
  end.

(** [EmailConfig]: both addresses and the password come from [os.getenv],
    which yields [None] for an unset variable. *)
Record EmailConfig : Type := {
  sender_email : option string;
  receiver_email : option string;
  password : option string;
  smtp_server : string;
  port : Z
}.

(** [email.message.EmailMessage] as [send_email] fills it: the values of the
    three headers it assigns and the text it hands to
    [set_content(content, subtype='html')].  The payload that the library
    derives from that text (line ends normalised, a final line feed, a
    transfer encoding) is not modelled. *)
Record EmailMessage : Type := {
  msg_subject : string;
  msg_from : string;
  msg_to : PyVal;
  set_content_html : string
}.

(** The calls [smtplib.SMTP_SSL(host, port)], [login(user, password)] and
    [send_message(message)] with their arguments; what the mail relay
    answers is outside the program. *)
Record SmtpSession : Type := {
  smtp_host : string;
  smtp_port : Z;
  smtp_login : PyVal * PyVal;
  smtp_message : EmailMessage
}.

(** An entry of [BackgroundTasks]: [add_task(send_email, config, subject,
    content)] stores the callable with its arguments. *)
Record Task : Type := {
  task_config : EmailConfig;
  task_subject : string;
  task_content : string
}.

(** What a handler can change: the process's standard output and the
    request's [BackgroundTasks] queue. *)
Record World : Type := {
  stdout : list string;
  background_tasks : list Task
}.

Definition fresh : World := {| stdout := []; background_tasks := [] |}.

Definition IO (A : Type) : Type := World -> A * World.

Definition ret {A : Type} (a : A) : IO A := fun w => (a, w).

Definition bind {A B : Type} (m : IO A) (k : A -> IO B) : IO B :=
  fun w => let (a, w') := m w in k a w'.

Declare Scope io_scope.
Delimit Scope io_scope with io.
Notation "x <- m ;; k" := (bind m (fun x => k))
  (at level 61, m at next level, right associativity) : io_scope.
Notation "m ;; k" := (bind m (fun _ => k))
  (at level 61, right associativity) : io_scope.
Open Scope io_scope.

(** [print(line)] *)
Definition print (line : string) : IO unit :=
  fun w => (tt, {| stdout := stdout w ++ [line]; background_tasks := background_tasks w |}).

(** [background_tasks.add_task(send_email, config, subject, content)] *)
Definition add_task (config : EmailConfig) (subject content : string) : IO unit :=
  fun w => (tt, {| stdout := stdout w;
                   background_tasks := background_tasks w ++
                     [{| task_config := config; task_subject := subject;
                         task_content := content |}] |}).

(* ===================================================================== *)
(** ** Requests, responses and headers *)
(* ===================================================================== *)

Inductive Method : Type := GET | POST | HEAD | PUT | DELETE | OPTIONS | PATCH.

(** A request: its method, [request.url.path], and the decoded fields of a
    form-encoded body in the order they were sent. *)
Record Request : Type := {
  method : Method;
  path : string;
  form : list (string * string)
}.

Module Headers.

(** Starlette's [MutableHeaders]: an ordered list of pairs whose names are
    lower-cased when written and when looked up. *)
Definition t : Type := list (string * string).

Fixpoint find (key : string) (h : t) : option string :=
  match h with
  | [] => None
  | (k, v) :: rest => if String.eqb k key then Some v else find key rest
  end.

(** [headers.get(key)] *)
Definition get (key : string) (h : t) : option string :=
  find (PyStr.lower key) h.

Fixpoint remove (key : string) (h : t) : t :=
  match h with
  | [] => []
  | (k, v) :: rest =>
      if String.eqb k key then remove key rest else (k, v) :: remove key rest
  end.

(** [__setitem__] on a lower-cased name: the first entry of that name is
    overwritten in place and the later ones are deleted; without one the
    pair is appended. *)
Fixpoint put (key value : string) (h : t) : t :=
  match h with
  | [] => [(key, value)]
  | (k, v) :: rest =>
      if String.eqb k key
      then (key, value) :: remove key rest
      else (k, v) :: put key value rest
  end.

(** [headers[key] = value] *)
Definition set (key value : string) (h : t) : t :=
  put (PyStr.lower key) value h.

(** [headers.update(other)]: one [__setitem__] per item, in order. *)
Definition update (other : list (string * string)) (h : t) : t :=
  fold_left (fun acc kv => set (fst kv) (snd kv) acc) other h.

End Headers.

(** What a response carries besides status and headers. *)
Inductive Body : Type :=
| Html (template : string)            (* the Jinja2 rendering of a template file *)
| NoBody
| ValidationErrors (fields : list string)   (* FastAPI's [{"detail": [...]}] *)
| Bytes (content : string).

(** A response.  The [content-length] header, which the framework derives
    from the body bytes, is not tracked: nothing in main.py reads or writes
    it. *)
Record Response : Type := {
  status_code : Z;
  headers : Headers.t;
  body : Body
}.

Definition with_headers (r : Response) (h : Headers.t) : Response :=
  {| status_code := status_code r; headers := h; body := body r |}.

(** [RedirectResponse(url=url, status_code=code)] for a URL that percent
    quoting leaves as it is (the two URLs of main.py are such). *)
Definition RedirectResponse (url : string) (code : Z) : Response :=
  {| status_code := code;
     headers := Headers.set "location" url [];
     body := NoBody |}.

(** [templates.TemplateResponse(name, {"request": request})] *)
Definition TemplateResponse (name : string) : Response :=
  {| status_code := 200;
     headers := Headers.set "content-type" "text/html; charset=utf-8" [];
     body := Html name |}.

(** FastAPI's answer to a [RequestValidationError]. *)
Definition HTTP_422_UNPROCESSABLE_ENTITY : Z := 422.
Definition HTTP_302_FOUND : Z := 302.

Definition validation_error_response (fields : list string) : Response :=
  {| status_code := HTTP_422_UNPROCESSABLE_ENTITY;
     headers := Headers.set "content-type" "application/json" [];
     body := ValidationErrors fields |}.

(** What main.py takes from outside: the environment variables, pydantic's
    validators for [EmailStr] and [int] form fields (each returns the
    validated value, or [None] when it rejects the text), and the answer of
    the framework to a request that no decorated route of main.py handles
    (the [/static] mount, 404, 405 and slash redirects). *)
Class External : Type := {
  getenv : string -> option string;
  validate_email : string -> option string;
  validate_int : string -> option Z;
  unrouted : Request -> Response
}.

(** What [send_email] takes from the standard library's [email] package:
    the exception, if any, with which its parser of address headers ([From],
    [To]) answers a header value. *)
Class EmailLibrary : Type := {
  address_header_error : string -> option PyExn
}.

(* ===================================================================== *)
(** ** The standard library's [datetime] for the two formats of [reserve_table] *)
(* ===================================================================== *)

Module Datetime.

Record date : Type := { year : Z; month : Z; day : Z }.

Definition digit (c : ascii) : option Z :=
  let n := nat_of_ascii c in
  if (Nat.leb 48 n && Nat.leb n 57)%bool then Some (Z.of_nat n - 48) else None.

(** The value of a string of decimal digits. *)
Fixpoint digits_from (acc : Z) (s : string) : option Z :=
  match s with
  | EmptyString => Some acc
  | String c rest =>
      match digit c with
      | Some d => digits_from (10 * acc + d) rest
      | None => None
      end
  end.

Definition between (lo hi : Z) (o : option Z) : option Z :=
  match o with
  | Some n => if ((lo <=? n) && (n <=? hi))%bool then Some n else None
  | None => None
  end.

(** [%d]: [3[0-1]|[1-2]\d|0[1-9]|[1-9]| [1-9]] *)
Definition directive_d (s : string) : option Z :=
  match s with
  | String a EmptyString => between 1 9 (digit a)
  | String a (String b EmptyString) =>
      if Ascii.eqb a " " then between 1 9 (digit b) else between 1 31 (digits_from 0 s)
  | _ => None
  end.

(** [%m]: [1[0-2]|0[1-9]|[1-9]] *)
Definition directive_m (s : string) : option Z :=
  match s with
  | String a EmptyString => between 1 9 (digit a)
  | String a (String b EmptyString) => between 1 12 (digits_from 0 s)
  | _ => None
  end.

(** [%Y]: [\d\d\d\d] *)
Definition directive_Y (s : string) : option Z :=
  if Nat.eqb (String.length s) 4 then digits_from 0 s else None.

(** The pieces of [s] between occurrences of [sep]. *)
Fixpoint split (sep : ascii) (s : string) : list string :=
  match s with
  | EmptyString => [EmptyString]
  | String c rest =>
      if Ascii.eqb c sep then EmptyString :: split sep rest
      else match split sep rest with
           | piece :: pieces => String c piece :: pieces
           | [] => [String c EmptyString]
           end
  end.

Definition is_leap (y : Z) : bool :=
  ((y mod 4 =? 0) && (negb (y mod 100 =? 0) || (y mod 400 =? 0)))%bool.

Definition days_in_month (y m : Z) : Z :=
  if m =? 2 then (if is_leap y then 29 else 28)
  else if ((m =? 4) || (m =? 6) || (m =? 9) || (m =? 11))%bool then 30
  else 31.

(** [datetime.strptime(s, "%d/%m/%Y")]: the three directives separated by
    slashes and nothing else, then the calendar check of the [datetime]
    constructor (years start at 1). *)
Definition strptime_dmy (s : string) : Outcome date :=
  match split "/" s with
  | [d; m; y] =>
      match directive_d d, directive_m m, directive_Y y with
      | Some dd, Some mm, Some yy =>
          if ((1 <=? yy) && (dd <=? days_in_month yy mm))%bool
          then Returns {| year := yy; month := mm; day := dd |}
          else Raises (ValueError "day is out of range for month")
      | _, _, _ => Raises (ValueError "time data does not match format '%d/%m/%Y'")
      end
  | _ => Raises (ValueError "time data does not match format '%d/%m/%Y'")
  end.

(** [%B] in the C locale. *)
Definition month_name (m : Z) : string :=
  match m with
  | 1 => "January" | 2 => "February" | 3 => "March" | 4 => "April"
  | 5 => "May" | 6 => "June" | 7 => "July" | 8 => "August"
  | 9 => "September" | 10 => "October" | 11 => "November" | _ => "December"
  end.

Definition two_digits (n : Z) : string :=
  if n <? 10 then "0" ++ PyStr.of_int n else PyStr.of_int n.

(** [d.strftime("%B %d, %Y")] *)
Definition strftime_long (d : date) : string :=
  month_name (month d) ++ " " ++ two_digits (day d) ++ ", " ++ PyStr.of_int (year d).

(** The long month-name rendering of a day/month/year string, when it has
    one. *)
Definition long_form (s : string) : Outcome string :=
  and_then (strptime_dmy s) (fun date_obj => Returns (strftime_long date_obj)).

End Datetime.

(* ===================================================================== *)
(** ** main.py *)
(* ===================================================================== *)

Section Main.

Context `{External} `{EmailLibrary}.

(** [get_email_config()]: the defaults of [EmailConfig]. *)
Definition get_email_config : EmailConfig :=
  {| sender_email := getenv "HOST_EMAIL";
     receiver_email := getenv "HOST_EMAIL";
     password := getenv "HOST_PASSWORD";
     smtp_server := "mail.privateemail.com";
     port := 465 |}.

Definition newline : string := String (ascii_of_nat 10) EmptyString.

(** [f'<p><b>{k.title()}:</b> {v}</p>'] *)
Definition html_line (item : string * PyVal) : string :=
  "<p><b>" ++ PyStr.title (fst item) ++ ":</b> " ++ py_str (snd item) ++ "</p>".

Definition html_head : string :=
  newline ++ "    <html>" ++ newline ++ "    <body>" ++ newline ++
  "        <h2>Form Submission</h2>" ++ newline ++ "        ".

Definition html_tail : string :=
  newline ++ "    </body>" ++ newline ++ "    </html>" ++ newline ++ "    ".

(** [create_html_content(data)]; [data.items()] is the list [data]. *)
Definition create_html_content (data : list (string * PyVal)) : string :=
  html_head ++ PyStr.join (map html_line data) ++ html_tail.

(** [len(value.splitlines()) > 1] *)
Definition has_inner_line_break (value : string) : bool :=
  Nat.ltb 1 (List.length (PyStr.splitlines value)).

(** [message[name] = value] for a [str] value: the policy's
    [header_store_parse] refuses a value of more than one line. *)
Definition header_store_parse (value : string) : Outcome string :=
  if has_inner_line_break value
  then Raises (ValueError
                 "Header values may not contain linefeed or carriage return characters")
  else Returns value.

(** The same for [From] and [To], whose values are parsed as addresses. *)
Definition address_header_store_parse (value : string) : Outcome string :=
  and_then (header_store_parse value) (fun accepted =>
    match address_header_error accepted with
    | Some e => Raises e
    | None => Returns accepted
    end).

(** [send_email(config, subject, content)]: the message it builds, header by
    header in the order of the source, and the SMTP calls it makes for it;
    an exception while the message is built leaves no SMTP call. *)
Definition send_email (config : EmailConfig) (subject content : string)
  : Outcome SmtpSession :=
  and_then (header_store_parse subject) (fun subject_header =>
  and_then (address_header_store_parse
              ("Broadway Lounge <" ++ py_str (of_optional (sender_email config)) ++ ">"))
           (fun from_header =>
  and_then (match receiver_email config with
            | Some receiver =>
                and_then (address_header_store_parse receiver)
                         (fun accepted => Returns (PyStr accepted))
            | None => Returns PyNone
            end)
           (fun to_header =>
  let message :=
    {| msg_subject := subject_header;
       msg_from := from_header;
       msg_to := to_header;
       set_content_html := content |} in
  Returns
    {| smtp_host := smtp_server config;
       smtp_port := port config;
       smtp_login := (of_optional (sender_email config), of_optional (password config));
       smtp_message := message |}))).

(** Running a queued task is running [send_email] on its arguments. *)
Definition run_task (t : Task) : Outcome SmtpSession :=
  send_email (task_config t) (task_subject t) (task_content t).

(** The paths [render_page] is registered under, top decorator first. *)
Definition page_routes : list string :=
  ["/"; "/reservations"; "/about"; "/bar"; "/contact"; "/gallery"; "/philex-index"].

(** [request.url.path.strip("/") or "index"] *)
Definition template_of (url_path : string) : string :=
  PyStr.or_else (PyStr.strip "/" url_path) "index".

Definition render_page (request : Request) : IO Response :=
  let template := template_of (path request) in
  ret (TemplateResponse (template ++ ".html")).

Definition contact_form (name email message : string) : IO Response :=
  print ("name: " ++ name ++ ", email: " ++ email ++ ", message: " ++ message) ;;
  let config := get_email_config in
  let subject := "Contact Form: " ++ name in
  let content := create_html_content
                   [("name", PyStr name); ("email", PyStr email); ("message", PyStr message)] in
  add_task config subject content ;;
  ret (RedirectResponse "/contact" HTTP_302_FOUND).

(** The attribute lookup [datetime.strptime] inside [reserve_table].  There
    [datetime] is the handler's own parameter (main.py imports no module of
    that name): a [str], or [None] when the field is absent, and neither
    type has an attribute [strptime]. *)
Definition getattr_strptime (datetime : option string)
  : Outcome (string -> Outcome Datetime.date) :=
  match datetime with
  | None => Raises (AttributeError "'NoneType' object has no attribute 'strptime'")
  | Some _ => Raises (AttributeError "'str' object has no attribute 'strptime'")
  end.

(** The [try] block of [reserve_table] and its bare [except]. *)
Definition format_date (datetime : option string) (date : string) : string :=
  try_except
    (and_then (getattr_strptime datetime) (fun strptime =>
     and_then (strptime date) (fun date_obj =>
     Returns (Datetime.strftime_long date_obj))))
    date.

Definition reserve_table (partysize : Z) (date time : string) (datetime : option string)
  : IO Response :=
  print ("partysize: " ++ PyStr.of_int partysize ++ ", date: " ++ date ++
         ", time: " ++ time ++ ", datetime: " ++ py_str (of_optional datetime)) ;;
  let config := get_email_config in
  let formatted_date := format_date datetime date in
  let subject := "Table Reservation Request" in
  let content := create_html_content
                   [("Party Size", PyInt partysize); ("Date", PyStr formatted_date);
                    ("Time", PyStr time)] in
  add_task config subject content ;;
  ret (RedirectResponse "/bar" HTTP_302_FOUND).

(** The email task a contact submission queues. *)
Definition contact_task (name email message : string) : Task :=
  {| task_config := get_email_config;
     task_subject := "Contact Form: " ++ name;
     task_content := create_html_content
                       [("name", PyStr name); ("email", PyStr email);
                        ("message", PyStr message)] |}.

(** The email task a reservation queues, as a function of the date line. *)
Definition reservation_task (partysize : Z) (date_line time : string) : Task :=
  {| task_config := get_email_config;
     task_subject := "Table Reservation Request";
     task_content := create_html_content
                       [("Party Size", PyInt partysize); ("Date", PyStr date_line);
                        ("Time", PyStr time)] |}.

(** *** Binding form fields to handler parameters *)

(** [FormData.get(name)]: of several fields of one name the last counts. *)
Fixpoint form_get (name : string) (fields : list (string * string)) : option string :=
  match fields with
  | [] => None
  | (k, v) :: rest =>
      match form_get name rest with
      | Some later => Some later
      | None => if String.eqb k name then Some v else None
      end
  end.

(** A form field that is absent is not given; so is an empty one for the
    FastAPI releases that read an empty form value as missing. *)
Definition form_field (name : string) (fields : list (string * string)) : option string :=
  match form_get name fields with
  | Some EmptyString => None
  | given => given
  end.

(** [x: str = Form(...)] *)
Definition required_str (name : string) (fields : list (string * string)) : option string :=
  form_field name fields.

(** [x: EmailStr = Form(...)] *)
Definition required_email (name : string) (fields : list (string * string)) : option string :=
  match form_field name fields with
  | Some text => validate_email text
  | None => None
  end.

(** [x: int = Form(...)] *)
Definition required_int (name : string) (fields : list (string * string)) : option Z :=
  match form_field name fields with
  | Some text => validate_int text
  | None => None
  end.

(** [x: str = Form(None)] *)
Definition optional_str (name : string) (fields : list (string * string)) : option string :=
  form_field name fields.

Definition error_at {A : Type} (name : string) (bound : option A) : list string :=
  match bound with
  | Some _ => []
  | None => [name]
  end.

(** [POST /contact-us]: the parameters are bound first; the handler runs
    only when every one of them is. *)
Definition contact_us (request : Request) : IO Response :=
  let fields := form request in
  match required_str "name" fields, required_email "email" fields,
        required_str "message" fields with
  | Some name, Some email, Some message => contact_form name email message
  | name, email, message =>
      ret (validation_error_response
             (error_at "name" name ++ error_at "email" email ++ error_at "message" message))
  end.

(** [POST /reserve-table] *)
Definition reserve_table_route (request : Request) : IO Response :=
  let fields := form request in
  match required_int "partysize" fields, required_str "date" fields,
        required_str "time" fields with
  | Some partysize, Some date, Some time =>
      reserve_table partysize date time (optional_str "datetime" fields)
  | partysize, date, time =>
      ret (validation_error_response
             (error_at "partysize" partysize ++ error_at "date" date ++ error_at "time" time))
  end.

(** The routes that main.py declares; every other request is the
    framework's. *)
Definition router (request : Request) : IO Response :=
  match method request with
  | GET =>
      if existsb (String.eqb (path request)) page_routes
      then render_page request
      else ret (unrouted request)
  | POST =>
      if String.eqb (path request) "/contact-us" then contact_us request
      else if String.eqb (path request) "/reserve-table" then reserve_table_route request
      else ret (unrouted request)
  | _ => ret (unrouted request)
  end.

(** *** Middleware *)

Definition add_headers (request : Request) (call_next : Request -> IO Response)
  : IO Response :=
  response <- call_next request ;;
  ret (with_headers response
         (Headers.update
            [("X-XSS-Protection", "1; mode=block");
             ("X-Content-Type-Options", "nosniff");
             ("Cache-Control",
              if status_code response =? 200 then "public, max-age=1200" else "no-store")]
            (headers response))).

Definition content_types : list (string * string) :=
  [(".ttf", "font/ttf"); (".woff", "font/woff"); (".woff2", "font/woff2")].

(** [d[key]] guarded by [key in d], for a dict written as a literal. *)
Fixpoint dict_get (key : string) (d : list (string * string)) : option string :=
  match d with
  | [] => None
  | (k, v) :: rest => if String.eqb k key then Some v else dict_get key rest
  end.

Definition fix_mime_type (request : Request) (call_next : Request -> IO Response)
  : IO Response :=
  response <- call_next request ;;
  let ext := snd (PyStr.splitext (path request)) in
  match dict_get ext content_types with
  | Some content_type =>
      ret (with_headers response
             (Headers.set "Content-Type" content_type (headers response)))
  | None => ret response
  end.

(** The application: the middleware registered last is the outermost. *)
Definition app (request : Request) : IO Response :=
  fix_mime_type request (fun inner => add_headers inner router).

End Main.

(* ===================================================================== *)
(** ** Definitions used to state the properties *)
(* ===================================================================== *)

Definition double_quote : ascii := "034"%char.

(** [html.escape(s)]: the five characters it replaces. *)
Definition escape_char (c : ascii) : string :=
  if Ascii.eqb c "&" then "&amp;"
  else if Ascii.eqb c "<" then "&lt;"
  else if Ascii.eqb c ">" then "&gt;"
  else if Ascii.eqb c double_quote then "&quot;"
  else if Ascii.eqb c "'" then "&#x27;"
  else String c EmptyString.

Fixpoint html_escape (s : string) : string :=
  match s with
  | EmptyString => EmptyString
  | String c rest => escape_char c ++ html_escape rest
  end.

Definition is_metachar (c : ascii) : bool :=
  (Ascii.eqb c "&" || Ascii.eqb c "<" || Ascii.eqb c ">" ||
   Ascii.eqb c double_quote || Ascii.eqb c "'")%bool.

(** No character of [s] is an HTML metacharacter. *)
Fixpoint plain (s : string) : bool :=
  match s with
  | EmptyString => true
  | String c rest => (negb (is_metachar c) && plain rest)%bool
  end.

(** The content formatter as the specification asks for it: the same lines
    with every value HTML-escaped. *)
Definition escaped_line (item : string * PyVal) : string :=
  "<p><b>" ++ PyStr.title (fst item) ++ ":</b> " ++ html_escape (py_str (snd item)) ++ "</p>".

Definition escaped_html_content (data : list (string * PyVal)) : string :=
  html_head ++ PyStr.join (map escaped_line data) ++ html_tail.

(** [s] is made of slashes only. *)
Fixpoint only_slashes (s : string) : bool :=
  match s with
  | EmptyString => true
  | String c rest => (Ascii.eqb c "/" && only_slashes rest)%bool
  end.

Definition starts_with_slash (s : string) : bool :=
  match s with
  | String c _ => Ascii.eqb c "/"
  | EmptyString => false
  end.

Fixpoint ends_with_slash (s : string) : bool :=
  match s with
  | EmptyString => false
  | String c EmptyString => Ascii.eqb c "/"
  | String _ rest => ends_with_slash rest
  end.

(** A deployment on which the program can be evaluated: two environment
    variables, a validator that takes [local@domain.tld] shapes for email
    addresses, one that takes an optional sign and decimal digits for
    integers, and 404 for everything unrouted. *)
Module Demo.

Definition environ (name : string) : option string :=
  if String.eqb name "HOST_EMAIL" then Some "host@broadway.example"
  else if String.eqb name "HOST_PASSWORD" then Some "hunter2"
  else None.

Definition email (text : string) : option string :=
  match Datetime.split "@" text with
  | [String _ _ as local; String _ _ as domain] =>
      match Datetime.split "." domain with
      | String _ _ :: String _ _ :: _ => Some text
      | _ => None
      end
  | _ => None
  end.

Definition integer (text : string) : option Z :=
  match text with
  | String "-" (String _ _ as digits) => option_map Z.opp (Datetime.digits_from 0 digits)
  | String "+" (String _ _ as digits) => Datetime.digits_from 0 digits
  | String _ _ => Datetime.digits_from 0 text
  | EmptyString => None
  end.

Definition not_found (_ : Request) : Response :=
  {| status_code := 404;
     headers := Headers.set "content-type" "application/json" [];
     body := Bytes "Not Found" |}.

Definition external : External :=
  {| getenv := environ; validate_email := email; validate_int := integer;
     unrouted := not_found |}.

(** An address parser that takes every value: the addresses of this
    deployment are well formed. *)
Definition email_library : EmailLibrary :=
  {| address_header_error := fun _ => None |}.

(** A name of two lines: [Ann], a line feed, [Bcc: x@y.example]. *)
Definition two_lines : string :=
  "Ann" ++ String "010" "Bcc: x@y.example".

Definition post (url_path : string) (fields : list (string * string)) : Request :=
  {| method := POST; path := url_path; form := fields |}.

Definition get (url_path : string) : Request :=
  {| method := GET; path := url_path; form := [] |}.

End Demo.

(** Every byte of [s] is an ASCII character. *)
Fixpoint is_ascii (s : string) : bool :=
  match s with
  | EmptyString => true
  | String c rest => (Nat.ltb (nat_of_ascii c) 128 && is_ascii rest)%bool
  end.

(** How many entries of a header list carry the (lower-cased) name [key]. *)
Fixpoint occurrences (key : string) (h : Headers.t) : nat :=
  match h with
  | [] => O
  | (k, _) :: rest => if String.eqb k key then S (occurrences key rest) else occurrences key rest
  end.

(** The application with its two middlewares registered in the other order,
    [add_headers] outermost. *)
Definition app_swapped `{External} (request : Request) : IO Response :=
  add_headers request (fun inner => fix_mime_type inner router).

(* ===================================================================== *)
(** ** Facts about headers *)
(* ===================================================================== *)

Section HeaderFacts.

Lemma find_remove_other key other (h : Headers.t) :
  key <> other -> Headers.find key (Headers.remove other h) = Headers.find key h.
Proof.
  intros Hne. induction h as [| [k v] rest IH]; simpl; [reflexivity |].
  destruct (String.eqb_spec k other) as [-> | Hk].
  - rewrite IH. destruct (String.eqb_spec other key); [congruence | reflexivity].
  - simpl. rewrite IH. reflexivity.
Qed.

Lemma find_put_same key value (h : Headers.t) :
  Headers.find key (Headers.put key value h) = Some value.
Proof.
  induction h as [| [k v] rest IH]; simpl.
  - rewrite String.eqb_refl. reflexivity.
  - destruct (String.eqb_spec k key) as [-> | Hk]; simpl.
    + rewrite String.eqb_refl. reflexivity.
    + destruct (String.eqb_spec k key); [contradiction | exact IH].
Qed.

Lemma find_put_other key other value (h : Headers.t) :
  key <> other -> Headers.find key (Headers.put other value h) = Headers.find key h.
Proof.
  intros Hne. induction h as [| [k v] rest IH]; simpl.
  - destruct (String.eqb_spec other key); [congruence | reflexivity].
  - destruct (String.eqb_spec k other) as [-> | Hk]; simpl.
    + destruct (String.eqb_spec other key); [congruence |].
      apply find_remove_other; assumption.
    + rewrite IH. reflexivity.
Qed.

Lemma get_set_same key value (h : Headers.t) :
  Headers.get key (Headers.set key value h) = Some value.
Proof. apply find_put_same. Qed.

Lemma get_set_other key other value (h : Headers.t) :
  PyStr.lower key <> PyStr.lower other ->
  Headers.get key (Headers.set other value h) = Headers.get key h.
Proof. apply find_put_other. Qed.

End HeaderFacts.

Create Rewrite HintDb headers.
#[local] Hint Rewrite get_set_same : headers.
#[local] Hint Rewrite get_set_other using (vm_compute; discriminate) : headers.

(* ===================================================================== *)
(** ** Facts about the middleware *)
(* ===================================================================== *)

Section MiddlewareFacts.

Context `{External}.

Variable call_next : Request -> IO Response.

Lemma add_headers_run request w :
  add_headers request call_next w =
  (with_headers (fst (call_next request w))
     (Headers.set "Cache-Control"
        (if status_code (fst (call_next request w)) =? 200
         then "public, max-age=1200" else "no-store")
        (Headers.set "X-Content-Type-Options" "nosniff"
           (Headers.set "X-XSS-Protection" "1; mode=block"
              (headers (fst (call_next request w)))))),
   snd (call_next request w)).
Proof.
  unfold add_headers, bind, ret. destruct (call_next request w) as [response w'].
  reflexivity.
Qed.

Lemma add_headers_status request w :
  status_code (fst (add_headers request call_next w)) =
  status_code (fst (call_next request w)).
Proof. rewrite add_headers_run. reflexivity. Qed.

Lemma fix_mime_type_run request w :
  fix_mime_type request call_next w =
  (match dict_get (snd (PyStr.splitext (path request))) content_types with
   | Some content_type =>
       with_headers (fst (call_next request w))
         (Headers.set "Content-Type" content_type (headers (fst (call_next request w))))
   | None => fst (call_next request w)
   end,
   snd (call_next request w)).
Proof.
  unfold fix_mime_type, bind, ret. destruct (call_next request w) as [response w'].
  cbv zeta. destruct (dict_get (snd (PyStr.splitext (path request))) content_types); reflexivity.
Qed.

Lemma fix_mime_type_status request w :
  status_code (fst (fix_mime_type request call_next w)) =
  status_code (fst (call_next request w)).
Proof.
  rewrite fix_mime_type_run. cbn [fst]. destruct (dict_get (snd (PyStr.splitext (path request))) content_types); reflexivity.
Qed.

Lemma fix_mime_type_body request w :
  body (fst (fix_mime_type request call_next w)) = body (fst (call_next request w)).
Proof.
  rewrite fix_mime_type_run. cbn [fst]. destruct (dict_get (snd (PyStr.splitext (path request))) content_types); reflexivity.
Qed.

Lemma fix_mime_type_world request w :
  snd (fix_mime_type request call_next w) = snd (call_next request w).
Proof. rewrite fix_mime_type_run. reflexivity. Qed.

(** The font correction writes [content-type] only. *)
Lemma fix_mime_type_keeps key request w :
  PyStr.lower key <> "content-type" ->
  Headers.get key (headers (fst (fix_mime_type request call_next w))) =
  Headers.get key (headers (fst (call_next request w))).
Proof.
  intros Hkey. rewrite fix_mime_type_run. cbn [fst].
  destruct (dict_get (snd (PyStr.splitext (path request))) content_types); [| reflexivity].
  cbn [headers with_headers]. apply get_set_other. exact Hkey.
Qed.

Lemma content_types_cases ext :
  dict_get ext content_types =
  if String.eqb ".ttf" ext then Some "font/ttf"
  else if String.eqb ".woff" ext then Some "font/woff"
  else if String.eqb ".woff2" ext then Some "font/woff2"
  else None.
Proof. reflexivity. Qed.

End MiddlewareFacts.

Section AppFacts.

Context `{External}.

Lemma app_status request w :
  status_code (fst (app request w)) = status_code (fst (router request w)).
Proof.
  unfold app. rewrite fix_mime_type_status. apply add_headers_status.
Qed.

Lemma app_body request w :
  body (fst (app request w)) = body (fst (router request w)).
Proof.
  unfold app. rewrite fix_mime_type_body, add_headers_run. reflexivity.
Qed.

Lemma app_world request w : snd (app request w) = snd (router request w).
Proof.
  unfold app. rewrite fix_mime_type_world, add_headers_run. reflexivity.
Qed.

(** Headers other than the four the middleware writes reach the client as
    the route set them. *)
Lemma app_keeps key request w :
  PyStr.lower key <> "content-type" ->
  PyStr.lower key <> "cache-control" ->
  PyStr.lower key <> "x-content-type-options" ->
  PyStr.lower key <> "x-xss-protection" ->
  Headers.get key (headers (fst (app request w))) =
  Headers.get key (headers (fst (router request w))).
Proof.
  intros H1 H2 H3 H4. unfold app.
  rewrite fix_mime_type_keeps by exact H1.
  rewrite add_headers_run. cbn [fst headers with_headers].
  rewrite !get_set_other by assumption. reflexivity.
Qed.

(** C5. Whatever the route and the status, the response that leaves the
    application carries [X-Content-Type-Options: nosniff] and
    [X-XSS-Protection: 1; mode=block]; its [Cache-Control] is
    [public, max-age=1200] exactly when the status is 200 and [no-store]
    otherwise. *)
Theorem every_response_has_security_headers request w :
  let response := fst (app request w) in
  Headers.get "X-Content-Type-Options" (headers response) = Some "nosniff" /\
  Headers.get "X-XSS-Protection" (headers response) = Some "1; mode=block" /\
  (Headers.get "Cache-Control" (headers response) = Some "public, max-age=1200"
   <-> status_code response = 200) /\
  (status_code response <> 200 ->
   Headers.get "Cache-Control" (headers response) = Some "no-store").
Proof.
  cbv zeta. rewrite app_status. unfold app.
  rewrite !fix_mime_type_keeps by (vm_compute; discriminate).
  rewrite add_headers_run. cbn [fst headers with_headers status_code].
  autorewrite with headers.
  destruct (Z.eqb_spec (status_code (fst (router request w))) 200) as [E | E].
  - repeat split; intros; congruence.
  - repeat split; intros; try congruence; discriminate.
Qed.

(** C9. When the extension of the request path is [.ttf], [.woff] or
    [.woff2], the response leaves with [Content-Type] [font/ttf],
    [font/woff] or [font/woff2]; for any other extension the response is
    the one the inner middleware produced, unchanged.  This holds for every
    request, whatever status the route answered with. *)
Theorem font_extension_sets_content_type request w :
  let ext := snd (PyStr.splitext (path request)) in
  let response := fst (app request w) in
  (ext = ".ttf" -> Headers.get "Content-Type" (headers response) = Some "font/ttf") /\
  (ext = ".woff" -> Headers.get "Content-Type" (headers response) = Some "font/woff") /\
  (ext = ".woff2" -> Headers.get "Content-Type" (headers response) = Some "font/woff2") /\
  (ext <> ".ttf" -> ext <> ".woff" -> ext <> ".woff2" ->
   response = fst (add_headers request router w)).
Proof.
  cbv zeta. unfold app. rewrite fix_mime_type_run. cbn [fst].
  rewrite content_types_cases.
  repeat split.
  - intros ->. cbn [String.eqb Ascii.eqb Bool.eqb headers with_headers].
    apply get_set_same.
  - intros ->. cbn [String.eqb Ascii.eqb Bool.eqb headers with_headers].
    apply get_set_same.
  - intros ->. cbn [String.eqb Ascii.eqb Bool.eqb headers with_headers].
    apply get_set_same.
  - intros Httf Hwoff Hwoff2.
    destruct (String.eqb_spec ".ttf" (snd (PyStr.splitext (path request))));
      [congruence |].
    destruct (String.eqb_spec ".woff" (snd (PyStr.splitext (path request))));
      [congruence |].
    destruct (String.eqb_spec ".woff2" (snd (PyStr.splitext (path request))));
      [congruence |].
    reflexivity.
Qed.

End AppFacts.

(* ===================================================================== *)
(** ** Facts about [strip] and the page renderer *)
(* ===================================================================== *)

Section StripFacts.

Lemma mem_slash c : PyStr.mem c "/" = Ascii.eqb c "/".
Proof.
  cbn [PyStr.mem]. rewrite (Ascii.eqb_sym "/" c).
  destruct (Ascii.eqb c "/"); reflexivity.
Qed.

Lemma lstrip_slashes s :
  exists l, s = l ++ PyStr.lstrip "/" s /\ only_slashes l = true /\
            starts_with_slash (PyStr.lstrip "/" s) = false.
Proof.
  induction s as [| a rest IH].
  - exists "". repeat split.
  - cbn [PyStr.lstrip]. rewrite mem_slash.
    destruct (Ascii.eqb a "/") eqn:Ea.
    + destruct IH as (l & Hl & Hs & Hn). exists (String a l).
      cbn [append only_slashes]. rewrite Ea, Hs, <- Hl. repeat split. exact Hn.
    + exists "". cbn [append only_slashes starts_with_slash]. repeat split. exact Ea.
Qed.

Lemma rstrip_slashes s :
  exists r, s = PyStr.rstrip "/" s ++ r /\ only_slashes r = true /\
            ends_with_slash (PyStr.rstrip "/" s) = false.
Proof.
  induction s as [| a rest IH].
  - exists "". repeat split.
  - destruct IH as (r & Hr & Hs & Hn). cbn [PyStr.rstrip]. rewrite mem_slash.
    destruct (PyStr.rstrip "/" rest) as [| b t] eqn:Erest.
    + cbn [append] in Hr. subst r.
      destruct (Ascii.eqb a "/") eqn:Ea.
      * exists (String a rest). cbn [append only_slashes].
        rewrite Ea, Hs. repeat split.
      * exists rest. cbn [append ends_with_slash]. repeat split; assumption.
    + exists r. cbn [append] in Hr |- *. rewrite <- Hr. repeat split; assumption.
Qed.

Lemma rstrip_keeps_start s :
  starts_with_slash s = false -> starts_with_slash (PyStr.rstrip "/" s) = false.
Proof.
  destruct s as [| a rest]; [reflexivity |]. cbn [starts_with_slash PyStr.rstrip].
  intros Ha. rewrite mem_slash, Ha.
  destruct (PyStr.rstrip "/" rest); cbn [starts_with_slash]; assumption.
Qed.

(** [strip("/")] removes a run of slashes at each end and nothing else, and
    what it returns neither starts nor ends with a slash. *)
Lemma strip_slashes s :
  exists l r, s = l ++ PyStr.strip "/" s ++ r /\
              only_slashes l = true /\ only_slashes r = true /\
              starts_with_slash (PyStr.strip "/" s) = false /\
              ends_with_slash (PyStr.strip "/" s) = false.
Proof.
  unfold PyStr.strip.
  destruct (lstrip_slashes s) as (l & Hl & Hls & Hstart).
  destruct (rstrip_slashes (PyStr.lstrip "/" s)) as (r & Hr & Hrs & Hend).
  exists l, r. rewrite <- Hr, <- Hl. repeat split; try assumption.
  apply rstrip_keeps_start. exact Hstart.
Qed.

Lemma template_of_cases p :
  template_of p =
  if String.eqb (PyStr.strip "/" p) "" then "index" else PyStr.strip "/" p.
Proof. unfold template_of. destruct (PyStr.strip "/" p); reflexivity. Qed.

End StripFacts.

Section PageFacts.

Context `{External}.

Lemma router_page request w :
  method request = GET -> In (path request) page_routes ->
  router request w = (TemplateResponse (template_of (path request) ++ ".html"), w).
Proof.
  intros Hm Hp. unfold router. rewrite Hm.
  replace (existsb (String.eqb (path request)) page_routes) with true; [reflexivity |].
  symmetry. apply existsb_exists. exists (path request). split; [exact Hp |].
  apply String.eqb_refl.
Qed.

(** C8. A GET request on one of the registered page paths is answered with
    status 200 and the template named after the path with the slashes
    stripped from both ends, [index] when nothing is left; [/] gives the
    index template and [/about] the about template. *)
Theorem page_renders_template_named_after_path request w :
  method request = GET ->
  In (path request) page_routes ->
  let stripped := PyStr.strip "/" (path request) in
  let response := fst (app request w) in
  status_code response = 200 /\
  body response = Html ((if String.eqb stripped "" then "index" else stripped) ++ ".html") /\
  (exists l r, path request = l ++ stripped ++ r /\
               only_slashes l = true /\ only_slashes r = true /\
               starts_with_slash stripped = false /\ ends_with_slash stripped = false) /\
  (path request = "/" -> body response = Html "index.html") /\
  (path request = "/about" -> body response = Html "about.html").
Proof.
  intros Hm Hp. cbv zeta. rewrite app_status, app_body, router_page by assumption.
  cbn [fst status_code body TemplateResponse]. rewrite template_of_cases.
  repeat split.
  - apply strip_slashes.
  - intros ->. reflexivity.
  - intros ->. reflexivity.
Qed.

End PageFacts.

(** C8 at a request: [GET /about] on the demo deployment. *)
Lemma page_renders_template_named_after_path_witness :
  body (fst (@app Demo.external (Demo.get "/about") fresh)) = Html "about.html".
Proof.
  refine (proj1 (proj2 (@page_renders_template_named_after_path Demo.external
                          (Demo.get "/about") fresh _ _))).
  - reflexivity.
  - simpl. tauto.
Defined.

(* ===================================================================== *)
(** ** Facts about the form handlers *)
(* ===================================================================== *)

Section FormFacts.

Context `{External}.

Lemma form_field_given name fields value :
  form_get name fields = Some value -> value <> "" ->
  form_field name fields = Some value.
Proof.
  intros Hget Hne. unfold form_field. rewrite Hget.
  destruct value; [contradiction | reflexivity].
Qed.

(** A field that is given reaches the validator with its text, or is not
    given at all. *)
Lemma form_field_cases name fields value :
  form_get name fields = Some value ->
  form_field name fields = Some value \/ form_field name fields = None.
Proof.
  intros Hget. unfold form_field. rewrite Hget. destruct value; auto.
Qed.

Lemma router_contact_us request w :
  method request = POST -> path request = "/contact-us" ->
  router request w = contact_us request w.
Proof. intros Hm Hp. unfold router. rewrite Hm, Hp. reflexivity. Qed.

Lemma router_reserve_table request w :
  method request = POST -> path request = "/reserve-table" ->
  router request w = reserve_table_route request w.
Proof. intros Hm Hp. unfold router. rewrite Hm, Hp. reflexivity. Qed.

Lemma contact_form_run name email message w :
  contact_form name email message w =
  (RedirectResponse "/contact" 302,
   {| stdout := stdout w ++
                ["name: " ++ name ++ ", email: " ++ email ++ ", message: " ++ message];
      background_tasks := background_tasks w ++ [contact_task name email message] |}).
Proof. reflexivity. Qed.

(** The lookup of [strptime] fails for every value the [datetime] field can
    take, so the bare [except] always supplies the raw date. *)
Lemma format_date_raw datetime date : format_date datetime date = date.
Proof. destruct datetime; reflexivity. Qed.

Lemma reserve_table_run partysize date time datetime w :
  reserve_table partysize date time datetime w =
  (RedirectResponse "/bar" 302,
   {| stdout := stdout w ++
                ["partysize: " ++ PyStr.of_int partysize ++ ", date: " ++ date ++
                 ", time: " ++ time ++ ", datetime: " ++ py_str (of_optional datetime)];
      background_tasks := background_tasks w ++ [reservation_task partysize date time] |}).
Proof.
  unfold reserve_table, reservation_task. rewrite format_date_raw. reflexivity.
Qed.

(** What leaves the application is a function of the request path and of
    the response of the route. *)
Lemma app_response request w :
  fst (app request w) =
  fst (fix_mime_type request (fun _ => ret (fst (add_headers request
         (fun _ => ret (fst (router request w))) w))) w).
Proof.
  unfold app. rewrite !fix_mime_type_run, !add_headers_run. reflexivity.
Qed.

End FormFacts.

Section ContactClaims.

Context `{External}.

(** C2. A contact submission whose name, email and message are given and
    non-empty and whose email passes validation is answered with a 302
    redirect to [/contact], and exactly one email task is queued; its
    subject is [Contact Form: ] followed by the submitted name. *)
Theorem valid_contact_redirects_and_queues_one_email
    request name email validated message w :
  method request = POST ->
  path request = "/contact-us" ->
  form_get "name" (form request) = Some name -> name <> "" ->
  form_get "email" (form request) = Some email -> email <> "" ->
  validate_email email = Some validated ->
  form_get "message" (form request) = Some message -> message <> "" ->
  let response := fst (app request w) in
  let queued := background_tasks (snd (app request w)) in
  status_code response = 302 /\
  Headers.get "Location" (headers response) = Some "/contact" /\
  queued = (background_tasks w ++ [contact_task name validated message])%list /\
  task_subject (contact_task name validated message) = "Contact Form: " ++ name.
Proof.
  intros Hm Hp Hname Hname' Hemail Hemail' Hvalid Hmessage Hmessage'. cbv zeta.
  rewrite app_status, app_world, app_keeps by (vm_compute; discriminate).
  rewrite router_contact_us by assumption.
  unfold contact_us, required_str, required_email.
  rewrite (form_field_given _ _ _ Hname Hname'), (form_field_given _ _ _ Hemail Hemail'),
    (form_field_given _ _ _ Hmessage Hmessage'), Hvalid.
  rewrite contact_form_run. cbn [fst snd background_tasks].
  repeat split.
Qed.

(** C4. A contact submission whose email field fails validation is answered
    with status 422, a client error, and the handler body never runs:
    nothing is printed and no email task is queued. *)
Theorem invalid_email_is_rejected_before_queueing request email w :
  method request = POST ->
  path request = "/contact-us" ->
  form_get "email" (form request) = Some email ->
  validate_email email = None ->
  let response := fst (app request w) in
  status_code response = 422 /\
  400 <= status_code response < 500 /\
  (exists fields, body response = ValidationErrors fields /\ In "email" fields) /\
  snd (app request w) = w.
Proof.
  intros Hm Hp Hemail Hinvalid. cbv zeta.
  rewrite app_status, app_world, app_body.
  rewrite router_contact_us by assumption.
  unfold contact_us.
  assert (Hnone : required_email "email" (form request) = None).
  { unfold required_email.
    destruct (form_field_cases _ _ _ Hemail) as [-> | ->]; [exact Hinvalid | reflexivity]. }
  rewrite Hnone.
  destruct (required_str "name" (form request)), (required_str "message" (form request));
    cbn [fst snd ret status_code body validation_error_response
         HTTP_422_UNPROCESSABLE_ENTITY error_at];
    unfold HTTP_422_UNPROCESSABLE_ENTITY;
    repeat split;
    first [lia | eexists; split; [reflexivity | simpl; tauto]].
Qed.

End ContactClaims.

Section ReservationClaims.

Context `{External}.

(** C1, as the code behaves: the date [25/12/2024] has the long form
    [December 25, 2024], yet the reservation handler puts the raw
    [25/12/2024] into the email, whatever the other fields are. *)
Theorem reservation_email_keeps_raw_25_12_2024 partysize time datetime w :
  Datetime.long_form "25/12/2024" = Returns "December 25, 2024" /\
  format_date datetime "25/12/2024" = "25/12/2024" /\
  background_tasks (snd (reserve_table partysize "25/12/2024" time datetime w)) =
    (background_tasks w ++ [reservation_task partysize "25/12/2024" time])%list.
Proof.
  split; [reflexivity |]. split; [apply format_date_raw |].
  rewrite reserve_table_run. reflexivity.
Qed.

(** C3. A reservation whose required fields are given and whose date does
    not parse as day/month/year is answered with a 302 redirect to [/bar],
    not a client error, and the queued email carries the date exactly as it
    was submitted. *)
Theorem unparseable_date_is_kept_and_request_succeeds
    request text partysize date time failure w :
  method request = POST ->
  path request = "/reserve-table" ->
  form_get "partysize" (form request) = Some text -> text <> "" ->
  validate_int text = Some partysize ->
  form_get "date" (form request) = Some date -> date <> "" ->
  form_get "time" (form request) = Some time -> time <> "" ->
  Datetime.strptime_dmy date = Raises failure ->
  let response := fst (app request w) in
  let queued := background_tasks (snd (app request w)) in
  format_date (optional_str "datetime" (form request)) date = date /\
  status_code response = 302 /\
  ~ (400 <= status_code response < 500) /\
  Headers.get "Location" (headers response) = Some "/bar" /\
  queued = (background_tasks w ++ [reservation_task partysize date time])%list.
Proof.
  intros Hm Hp Hsize Hsize' Hint Hdate Hdate' Htime Htime' _. cbv zeta.
  rewrite app_status, app_world, app_keeps by (vm_compute; discriminate).
  rewrite router_reserve_table by assumption.
  unfold reserve_table_route, required_str, required_int.
  rewrite (form_field_given _ _ _ Hsize Hsize'), (form_field_given _ _ _ Hdate Hdate'),
    (form_field_given _ _ _ Htime Htime'), Hint.
  rewrite reserve_table_run. cbn [fst snd background_tasks].
  split; [apply format_date_raw |].
  repeat split. cbn. lia.
Qed.

End ReservationClaims.

Section PartySizeClaims.

Context `{External}.

Lemma required_int_rejected name fields :
  form_get name fields = None \/
  form_get name fields = Some "" \/
  (exists text, form_get name fields = Some text /\ validate_int text = None) ->
  required_int name fields = None.
Proof.
  unfold required_int, form_field.
  intros [-> | [-> | (text & -> & Hrejected)]]; try reflexivity.
  destruct text; [reflexivity | exact Hrejected].
Qed.

(** C6, as the code behaves: a reservation whose [partysize] is missing,
    empty or rejected by the integer validation is answered with status 422
    and queues nothing; an integer [partysize] is accepted whatever its
    sign, zero and negative numbers included. *)
Theorem partysize_is_checked_for_integer_only request w :
  method request = POST ->
  path request = "/reserve-table" ->
  let response := fst (app request w) in
  ((form_get "partysize" (form request) = None \/
    form_get "partysize" (form request) = Some "" \/
    (exists text, form_get "partysize" (form request) = Some text /\
                  validate_int text = None)) ->
   status_code response = 422 /\ 400 <= status_code response < 500 /\
   snd (app request w) = w) /\
  (forall text partysize date time,
     form_get "partysize" (form request) = Some text -> text <> "" ->
     validate_int text = Some partysize ->
     form_get "date" (form request) = Some date -> date <> "" ->
     form_get "time" (form request) = Some time -> time <> "" ->
     status_code response = 302 /\
     background_tasks (snd (app request w)) =
       (background_tasks w ++ [reservation_task partysize date time])%list).
Proof.
  intros Hm Hp. cbv zeta.
  rewrite app_status, app_world, router_reserve_table by assumption.
  unfold reserve_table_route. split.
  - intros Hrejected. rewrite (required_int_rejected _ _ Hrejected).
    destruct (required_str "date" (form request)), (required_str "time" (form request));
      cbn [fst snd ret status_code validation_error_response];
      unfold HTTP_422_UNPROCESSABLE_ENTITY; repeat split; lia.
  - intros text partysize date time Hsize Hsize' Hint Hdate Hdate' Htime Htime'.
    unfold required_str, required_int.
    rewrite (form_field_given _ _ _ Hsize Hsize'), (form_field_given _ _ _ Hdate Hdate'),
      (form_field_given _ _ _ Htime Htime'), Hint.
    rewrite reserve_table_run. split; reflexivity.
Qed.

Lemma reserve_table_route_agree request1 request2 w :
  form_get "partysize" (form request1) = form_get "partysize" (form request2) ->
  form_get "date" (form request1) = form_get "date" (form request2) ->
  form_get "time" (form request1) = form_get "time" (form request2) ->
  fst (reserve_table_route request1 w) = fst (reserve_table_route request2 w) /\
  background_tasks (snd (reserve_table_route request1 w)) =
  background_tasks (snd (reserve_table_route request2 w)).
Proof.
  intros Hsize Hdate Htime.
  unfold reserve_table_route, required_int, required_str, form_field.
  rewrite Hsize, Hdate, Htime.
  destruct (match form_get "partysize" (form request2) with
            | Some "" => None
            | given => given
            end) as [text |]; [destruct (validate_int text) |];
    destruct (match form_get "date" (form request2) with
              | Some "" => None
              | given => given
              end);
    destruct (match form_get "time" (form request2) with
              | Some "" => None
              | given => given
              end);
    rewrite ?reserve_table_run; split; reflexivity.
Qed.

(** C10. Two reservation submissions with the same [partysize], [date] and
    [time] fields get the same response and queue the same email tasks
    (same configuration, subject and HTML content), whatever their
    [datetime] fields are, given or not. *)
Theorem datetime_field_has_no_influence request1 request2 w :
  method request1 = POST -> path request1 = "/reserve-table" ->
  method request2 = POST -> path request2 = "/reserve-table" ->
  form_get "partysize" (form request1) = form_get "partysize" (form request2) ->
  form_get "date" (form request1) = form_get "date" (form request2) ->
  form_get "time" (form request1) = form_get "time" (form request2) ->
  fst (app request1 w) = fst (app request2 w) /\
  background_tasks (snd (app request1 w)) = background_tasks (snd (app request2 w)).
Proof.
  intros Hm1 Hp1 Hm2 Hp2 Hsize Hdate Htime.
  destruct (reserve_table_route_agree request1 request2 w Hsize Hdate Htime)
    as [Hresponse Htasks].
  rewrite !app_world, !app_response, !fix_mime_type_run, !add_headers_run.
  rewrite !router_reserve_table by assumption.
  cbn [fst snd ret]. rewrite Hp1, Hp2, Hresponse. split; [reflexivity | exact Htasks].
Qed.

End PartySizeClaims.

(* ===================================================================== *)
(** ** Facts about the content formatter *)
(* ===================================================================== *)

Section FormatterFacts.

Lemma append_assoc (a b c : string) : (a ++ b) ++ c = a ++ b ++ c.
Proof. induction a as [| x a IH]; simpl; [reflexivity | rewrite IH; reflexivity]. Qed.

Lemma append_length (a b : string) :
  String.length (a ++ b) = (String.length a + String.length b)%nat.
Proof. induction a as [| x a IH]; simpl; [reflexivity | rewrite IH; reflexivity]. Qed.

Lemma escape_char_plain c : is_metachar c = false -> escape_char c = String c "".
Proof.
  unfold is_metachar, escape_char.
  destruct (Ascii.eqb c "&"), (Ascii.eqb c "<"), (Ascii.eqb c ">"),
    (Ascii.eqb c double_quote), (Ascii.eqb c "'"); simpl; congruence.
Qed.

Lemma escape_char_longer c :
  is_metachar c = true -> (4 <= String.length (escape_char c))%nat.
Proof.
  unfold is_metachar, escape_char.
  destruct (Ascii.eqb c "&"), (Ascii.eqb c "<"), (Ascii.eqb c ">"),
    (Ascii.eqb c double_quote), (Ascii.eqb c "'"); simpl; intros; try lia; discriminate.
Qed.

Lemma html_escape_plain s : plain s = true -> html_escape s = s.
Proof.
  induction s as [| c s IH]; simpl; [reflexivity |].
  intros Hplain. apply andb_prop in Hplain as [Hc Hs].
  apply negb_true_iff in Hc. rewrite (escape_char_plain _ Hc), (IH Hs). reflexivity.
Qed.

(** Escaping never shortens a string, and keeps its length only when there
    was nothing to escape. *)
Lemma html_escape_length s :
  (String.length s <= String.length (html_escape s))%nat /\
  (String.length (html_escape s) = String.length s -> plain s = true).
Proof.
  induction s as [| c s [IHle IHeq]]; simpl; [split; [lia | reflexivity] |].
  rewrite append_length.
  destruct (is_metachar c) eqn:Ec.
  - pose proof (escape_char_longer _ Ec). split; [lia | intros; lia].
  - rewrite (escape_char_plain _ Ec). simpl. split; [lia |].
    intros Hlen. apply IHeq. lia.
Qed.

Lemma line_lengths item :
  exists fixed,
    String.length (html_line item) = (fixed + String.length (py_str (snd item)))%nat /\
    String.length (escaped_line item) =
      (fixed + String.length (html_escape (py_str (snd item))))%nat.
Proof.
  exists (6 + String.length (PyStr.title (fst item)) + 6 + 4)%nat.
  unfold html_line, escaped_line. rewrite !append_length. simpl. lia.
Qed.

Lemma joined_lengths data :
  (String.length (PyStr.join (map html_line data)) <=
   String.length (PyStr.join (map escaped_line data)))%nat /\
  (String.length (PyStr.join (map escaped_line data)) =
   String.length (PyStr.join (map html_line data)) ->
   forall item, In item data -> plain (py_str (snd item)) = true).
Proof.
  induction data as [| first data [IHle IHeq]]; cbn [map PyStr.join].
  - split; [lia | intros _ item []].
  - rewrite !append_length.
    destruct (line_lengths first) as (fixed & -> & ->).
    destruct (html_escape_length (py_str (snd first))) as [Hle Heq].
    split; [lia |].
    intros Hlen item [<- | Hin].
    + apply Heq. lia.
    + apply IHeq; [lia | exact Hin].
Qed.

Lemma line_is_embedded data item :
  In item data ->
  exists before after,
    PyStr.join (map html_line data) = before ++ html_line item ++ after.
Proof.
  induction data as [| first data IH]; [intros [] |].
  cbn [map PyStr.join]. intros [-> | Hin].
  - exists "", (PyStr.join (map html_line data)). reflexivity.
  - destruct (IH Hin) as (before & after & ->).
    exists (html_line first ++ before), after. rewrite append_assoc. reflexivity.
Qed.

(** C7, as the code behaves: the formatter embeds every value as it is, in
    the line [<p><b>Key:</b> value</p>], and its output is the HTML-escaped
    rendering exactly when no value contains one of the characters that
    [html.escape] replaces. *)
Theorem values_are_embedded_unescaped data :
  (forall item, In item data ->
     exists before after,
       create_html_content data =
       before ++ "<p><b>" ++ PyStr.title (fst item) ++ ":</b> " ++ py_str (snd item)
              ++ "</p>" ++ after) /\
  (create_html_content data = escaped_html_content data <->
   forall item, In item data -> plain (py_str (snd item)) = true).
Proof.
  split.
  - intros item Hin. destruct (line_is_embedded data item Hin) as (before & after & Hjoin).
    exists (html_head ++ before), (after ++ html_tail).
    unfold create_html_content. rewrite Hjoin. unfold html_line.
    rewrite !append_assoc. reflexivity.
  - unfold create_html_content, escaped_html_content. split.
    + intros Heq. apply (proj2 (joined_lengths data)).
      apply (f_equal String.length) in Heq. rewrite !append_length in Heq. lia.
    + intros Hplain. do 3 f_equal. apply map_ext_in.
      intros item Hin. unfold html_line, escaped_line.
      rewrite (html_escape_plain _ (Hplain item Hin)). reflexivity.
Qed.

End FormatterFacts.

(* ===================================================================== *)
(** ** The theorems at concrete requests *)
(* ===================================================================== *)

(** C2 at a request: Ann's message is redirected and queues one email. *)
Lemma valid_contact_redirects_and_queues_one_email_witness :
  let request := Demo.post "/contact-us"
                   [("name", "Ann"); ("email", "ann@example.com"); ("message", "Hello")] in
  Demo.email "ann@example.com" = Some "ann@example.com" /\
  status_code (fst (@app Demo.external request fresh)) = 302 /\
  Headers.get "Location" (headers (fst (@app Demo.external request fresh))) = Some "/contact" /\
  map task_subject (background_tasks (snd (@app Demo.external request fresh))) =
    ["Contact Form: Ann"].
Proof.
  cbv zeta.
  destruct (@valid_contact_redirects_and_queues_one_email Demo.external
              (Demo.post "/contact-us"
                 [("name", "Ann"); ("email", "ann@example.com"); ("message", "Hello")])
              "Ann" "ann@example.com" "ann@example.com" "Hello" fresh
              eq_refl eq_refl eq_refl ltac:(discriminate) eq_refl ltac:(discriminate)
              eq_refl eq_refl ltac:(discriminate))
    as (Hstatus & Hlocation & Hqueued & _).
  split; [reflexivity |]. split; [exact Hstatus |]. split; [exact Hlocation |].
  rewrite Hqueued. reflexivity.
Defined.

(** C4 at a request: [nope] is no email address. *)
Lemma invalid_email_is_rejected_before_queueing_witness :
  let request := Demo.post "/contact-us"
                   [("name", "Ann"); ("email", "nope"); ("message", "Hello")] in
  Demo.email "nope" = None /\
  status_code (fst (@app Demo.external request fresh)) = 422 /\
  snd (@app Demo.external request fresh) = fresh.
Proof.
  cbv zeta.
  destruct (@invalid_email_is_rejected_before_queueing Demo.external
              (Demo.post "/contact-us"
                 [("name", "Ann"); ("email", "nope"); ("message", "Hello")])
              "nope" fresh eq_refl eq_refl eq_refl eq_refl)
    as (Hstatus & _ & _ & Hworld).
  split; [reflexivity |]. split; [exact Hstatus | exact Hworld].
Defined.

(** C3 at a request: the date [not-a-date]. *)
Lemma unparseable_date_is_kept_and_request_succeeds_witness :
  let request := Demo.post "/reserve-table"
                   [("partysize", "4"); ("date", "not-a-date"); ("time", "19:30")] in
  Datetime.strptime_dmy "not-a-date" =
    Raises (ValueError "time data does not match format '%d/%m/%Y'") /\
  status_code (fst (@app Demo.external request fresh)) = 302 /\
  Headers.get "Location" (headers (fst (@app Demo.external request fresh))) = Some "/bar" /\
  background_tasks (snd (@app Demo.external request fresh)) =
    [@reservation_task Demo.external 4 "not-a-date" "19:30"].
Proof.
  cbv zeta.
  destruct (@unparseable_date_is_kept_and_request_succeeds Demo.external
              (Demo.post "/reserve-table"
                 [("partysize", "4"); ("date", "not-a-date"); ("time", "19:30")])
              "4" 4 "not-a-date" "19:30"
              (ValueError "time data does not match format '%d/%m/%Y'") fresh
              eq_refl eq_refl eq_refl ltac:(discriminate) eq_refl
              eq_refl ltac:(discriminate) eq_refl ltac:(discriminate) eq_refl)
    as (_ & Hstatus & _ & Hlocation & Hqueued).
  split; [reflexivity |]. split; [exact Hstatus |]. split; [exact Hlocation |].
  exact Hqueued.
Defined.

(** C6 fails as stated: party sizes [0] and [-3] are not positive
    integers, and both reservations are accepted and queue an email. *)
Lemma zero_and_negative_partysize_are_accepted :
  let zero := Demo.post "/reserve-table"
                [("partysize", "0"); ("date", "25/12/2024"); ("time", "19:30")] in
  let negative := Demo.post "/reserve-table"
                    [("partysize", "-3"); ("date", "25/12/2024"); ("time", "19:30")] in
  @required_int Demo.external "partysize" (form zero) = Some 0 /\
  @required_int Demo.external "partysize" (form negative) = Some (-3) /\
  status_code (fst (@app Demo.external zero fresh)) = 302 /\
  status_code (fst (@app Demo.external negative fresh)) = 302 /\
  ~ (400 <= status_code (fst (@app Demo.external zero fresh)) < 500) /\
  background_tasks (snd (@app Demo.external zero fresh)) =
    [@reservation_task Demo.external 0 "25/12/2024" "19:30"] /\
  background_tasks (snd (@app Demo.external negative fresh)) =
    [@reservation_task Demo.external (-3) "25/12/2024" "19:30"].
Proof.
  cbv zeta. repeat split. vm_compute. intros [Hlow _]. apply Hlow. reflexivity.
Qed.

(** C6 at a request: [many] is no integer. *)
Lemma partysize_is_checked_for_integer_only_witness :
  let request := Demo.post "/reserve-table"
                   [("partysize", "many"); ("date", "25/12/2024"); ("time", "19:30")] in
  Demo.integer "many" = None /\
  status_code (fst (@app Demo.external request fresh)) = 422 /\
  snd (@app Demo.external request fresh) = fresh.
Proof.
  cbv zeta.
  destruct (@partysize_is_checked_for_integer_only Demo.external
              (Demo.post "/reserve-table"
                 [("partysize", "many"); ("date", "25/12/2024"); ("time", "19:30")])
              fresh eq_refl eq_refl) as [Hrejected _].
  destruct Hrejected as (Hstatus & _ & Hworld).
  - right. right. exists "many". split; reflexivity.
  - split; [reflexivity |]. split; [exact Hstatus | exact Hworld].
Defined.

(** C10 at two requests: one sends a [datetime] field, the other does not. *)
Lemma datetime_field_has_no_influence_witness :
  let with_field := Demo.post "/reserve-table"
                      [("partysize", "4"); ("date", "25/12/2024"); ("time", "19:30");
                       ("datetime", "2024-12-25T19:30")] in
  let without := Demo.post "/reserve-table"
                   [("partysize", "4"); ("date", "25/12/2024"); ("time", "19:30")] in
  @optional_str "datetime" (form with_field) <> @optional_str "datetime" (form without) /\
  fst (@app Demo.external with_field fresh) = fst (@app Demo.external without fresh) /\
  background_tasks (snd (@app Demo.external with_field fresh)) =
  background_tasks (snd (@app Demo.external without fresh)).
Proof.
  cbv zeta. split; [discriminate |].
  exact (@datetime_field_has_no_influence Demo.external
           (Demo.post "/reserve-table"
              [("partysize", "4"); ("date", "25/12/2024"); ("time", "19:30");
               ("datetime", "2024-12-25T19:30")])
           (Demo.post "/reserve-table"
              [("partysize", "4"); ("date", "25/12/2024"); ("time", "19:30")])
           fresh eq_refl eq_refl eq_refl eq_refl eq_refl eq_refl eq_refl).
Defined.

(** C7 fails as stated: a value with markup reaches the email body as
    markup, where the escaped rendering would have entities. *)
Lemma markup_in_a_value_is_not_escaped :
  let data := [("message", PyStr "<b>hi</b>")] in
  create_html_content data =
    html_head ++ "<p><b>Message:</b> <b>hi</b></p>" ++ html_tail /\
  escaped_html_content data =
    html_head ++ "<p><b>Message:</b> &lt;b&gt;hi&lt;/b&gt;</p>" ++ html_tail /\
  create_html_content data <> escaped_html_content data.
Proof.
  cbv zeta. split; [reflexivity |]. split; [reflexivity |].
  vm_compute. discriminate.
Qed.

(** C7 at a mapping: the value is found in its line. *)
Lemma values_are_embedded_unescaped_witness :
  exists before after,
    create_html_content [("message", PyStr "<b>hi</b>")] =
    before ++ "<p><b>" ++ PyStr.title "message" ++ ":</b> " ++ "<b>hi</b>" ++ "</p>" ++ after.
Proof.
  exact (proj1 (values_are_embedded_unescaped [("message", PyStr "<b>hi</b>")])
           ("message", PyStr "<b>hi</b>") (or_introl eq_refl)).
Defined.

(** C9 at a request: a font under the static mount. *)
Lemma font_extension_sets_content_type_witness :
  let request := Demo.get "/static/fonts/lounge.woff2" in
  snd (PyStr.splitext (path request)) = ".woff2" /\
  Headers.get "Content-Type" (headers (fst (@app Demo.external request fresh))) =
    Some "font/woff2".
Proof.
  cbv zeta. split; [reflexivity |].
  exact (proj1 (proj2 (proj2 (@font_extension_sets_content_type Demo.external
                                (Demo.get "/static/fonts/lounge.woff2") fresh)))
           eq_refl).
Defined.

(** The request of C1 on the demo deployment: the [Date] line of the queued
    email is the raw field. *)
Example reservation_25_12_2024_on_demo :
  map task_content
    (background_tasks
       (snd (@app Demo.external
               (Demo.post "/reserve-table"
                  [("partysize", "4"); ("date", "25/12/2024"); ("time", "19:30")])
               fresh))) =
  [html_head ++
   "<p><b>Party Size:</b> 4</p><p><b>Date:</b> 25/12/2024</p><p><b>Time:</b> 19:30</p>" ++
   html_tail].
Proof. reflexivity. Qed.

(** A path that ends in [.woff2] but whose file name is only the dotted
    suffix has no extension for [splitext]. *)
Example dotfile_has_no_extension : PyStr.splitext "/static/.woff2" = ("/static/.woff2", "").
Proof. reflexivity. Qed.

(* ===================================================================== *)
(** ** More about the middleware *)
(* ===================================================================== *)

Section HeaderCounting.

Lemma get_set key other value (h : Headers.t) :
  Headers.get key (Headers.set other value h) =
  if String.eqb (PyStr.lower other) (PyStr.lower key) then Some value
  else Headers.get key h.
Proof.
  destruct (String.eqb_spec (PyStr.lower other) (PyStr.lower key)) as [E | E].
  - unfold Headers.get, Headers.set. rewrite <- E. apply find_put_same.
  - apply get_set_other. congruence.
Qed.

Lemma occurrences_remove_same key (h : Headers.t) :
  occurrences key (Headers.remove key h) = O.
Proof.
  induction h as [| [k v] rest IH]; cbn [Headers.remove occurrences]; [reflexivity |].
  destruct (String.eqb k key) eqn:E; [exact IH |].
  cbn [occurrences]. rewrite E. exact IH.
Qed.

Lemma occurrences_remove_other key other (h : Headers.t) :
  key <> other -> occurrences key (Headers.remove other h) = occurrences key h.
Proof.
  intros Hne. induction h as [| [k v] rest IH]; cbn [Headers.remove occurrences];
    [reflexivity |].
  destruct (String.eqb_spec k other) as [-> | Hk].
  - destruct (String.eqb_spec other key); [congruence | exact IH].
  - cbn [occurrences]. rewrite IH. reflexivity.
Qed.

Lemma occurrences_put_same key value (h : Headers.t) :
  occurrences key (Headers.put key value h) = 1%nat.
Proof.
  induction h as [| [k v] rest IH]; cbn [Headers.put occurrences].
  - rewrite String.eqb_refl. reflexivity.
  - destruct (String.eqb k key) eqn:E; cbn [occurrences].
    + rewrite String.eqb_refl, occurrences_remove_same. reflexivity.
    + rewrite E. exact IH.
Qed.

Lemma occurrences_put_other key other value (h : Headers.t) :
  key <> other -> occurrences key (Headers.put other value h) = occurrences key h.
Proof.
  intros Hne. induction h as [| [k v] rest IH]; cbn [Headers.put occurrences].
  - destruct (String.eqb_spec other key); [congruence | reflexivity].
  - destruct (String.eqb_spec k other) as [-> | Hk]; cbn [occurrences].
    + destruct (String.eqb_spec other key); [congruence |].
      apply occurrences_remove_other. exact Hne.
    + rewrite IH. reflexivity.
Qed.

End HeaderCounting.

Section MiddlewareOrder.

Context `{External}.

Lemma app_headers request w :
  headers (fst (app request w)) =
  let inner :=
    Headers.set "Cache-Control"
      (if status_code (fst (router request w)) =? 200
       then "public, max-age=1200" else "no-store")
      (Headers.set "X-Content-Type-Options" "nosniff"
         (Headers.set "X-XSS-Protection" "1; mode=block"
            (headers (fst (router request w))))) in
  match dict_get (snd (PyStr.splitext (path request))) content_types with
  | Some content_type => Headers.set "Content-Type" content_type inner
  | None => inner
  end.
Proof.
  unfold app. rewrite fix_mime_type_run, add_headers_run. cbn [fst].
  destruct (dict_get (snd (PyStr.splitext (path request))) content_types); reflexivity.
Qed.

Lemma app_swapped_run request w :
  app_swapped request w =
  (let routed := fst (router request w) in
   let fixed :=
     match dict_get (snd (PyStr.splitext (path request))) content_types with
     | Some content_type => Headers.set "Content-Type" content_type (headers routed)
     | None => headers routed
     end in
   with_headers routed
     (Headers.set "Cache-Control"
        (if status_code routed =? 200 then "public, max-age=1200" else "no-store")
        (Headers.set "X-Content-Type-Options" "nosniff"
           (Headers.set "X-XSS-Protection" "1; mode=block" fixed))),
   snd (router request w)).
Proof.
  unfold app_swapped. rewrite add_headers_run, fix_mime_type_run. cbn [fst snd].
  destruct (dict_get (snd (PyStr.splitext (path request))) content_types); reflexivity.
Qed.

Lemma cache_control_of_app request w :
  Headers.get "Cache-Control" (headers (fst (app request w))) =
  Some (if status_code (fst (router request w)) =? 200
        then "public, max-age=1200" else "no-store").
Proof.
  rewrite app_headers. cbv zeta.
  destruct (dict_get (snd (PyStr.splitext (path request))) content_types);
    autorewrite with headers; reflexivity.
Qed.

(** X1. The two middlewares write different headers, so the order in which they
    were registered cannot be observed: with [add_headers] outermost instead
    of [fix_mime_type], the status, the body, the effects and the value of
    every header are the same. *)
Theorem middleware_order_cannot_be_observed request w key :
  status_code (fst (app request w)) = status_code (fst (app_swapped request w)) /\
  body (fst (app request w)) = body (fst (app_swapped request w)) /\
  snd (app request w) = snd (app_swapped request w) /\
  Headers.get key (headers (fst (app request w))) =
  Headers.get key (headers (fst (app_swapped request w))).
Proof.
  rewrite app_status, app_body, app_world, app_headers, app_swapped_run.
  cbv zeta. cbn [fst snd status_code body headers with_headers].
  repeat split.
  destruct (dict_get (snd (PyStr.splitext (path request))) content_types) as [content_type |];
    [| reflexivity].
  rewrite !get_set.
  remember (PyStr.lower key) as name eqn:Ename. clear Ename.
  destruct (String.eqb_spec (PyStr.lower "Content-Type") name) as [<- | Hct];
    [reflexivity |].
  reflexivity.
Qed.

(** X2. Whatever the route put into its header list, duplicates included, the
    response leaves with exactly one [Cache-Control], one
    [X-Content-Type-Options] and one [X-XSS-Protection] entry. *)
Theorem security_headers_occur_exactly_once request w :
  let sent := headers (fst (app request w)) in
  occurrences "cache-control" sent = 1%nat /\
  occurrences "x-content-type-options" sent = 1%nat /\
  occurrences "x-xss-protection" sent = 1%nat.
Proof.
  cbv zeta. rewrite app_headers. cbv zeta. unfold Headers.set.
  assert (Hcc : PyStr.lower "Cache-Control" = "cache-control") by reflexivity.
  assert (Hno : PyStr.lower "X-Content-Type-Options" = "x-content-type-options")
    by reflexivity.
  assert (Hxss : PyStr.lower "X-XSS-Protection" = "x-xss-protection") by reflexivity.
  assert (Hct : PyStr.lower "Content-Type" = "content-type") by reflexivity.
  rewrite Hcc, Hno, Hxss, Hct.
  destruct (dict_get (snd (PyStr.splitext (path request))) content_types);
    repeat split;
    repeat first
      [ apply occurrences_put_same
      | rewrite occurrences_put_other by discriminate ].
Qed.

(** X3. The middleware changes nothing else: the status, the body and every
    header other than [Content-Type], [Cache-Control],
    [X-Content-Type-Options] and [X-XSS-Protection] reach the client as the
    route produced them. *)
Theorem middleware_passes_the_rest_through request w key :
  PyStr.lower key <> "content-type" ->
  PyStr.lower key <> "cache-control" ->
  PyStr.lower key <> "x-content-type-options" ->
  PyStr.lower key <> "x-xss-protection" ->
  status_code (fst (app request w)) = status_code (fst (router request w)) /\
  body (fst (app request w)) = body (fst (router request w)) /\
  Headers.get key (headers (fst (app request w))) =
  Headers.get key (headers (fst (router request w))).
Proof.
  intros H1 H2 H3 H4. split; [apply app_status |]. split; [apply app_body |].
  apply app_keeps; assumption.
Qed.

End MiddlewareOrder.

(* ===================================================================== *)
(** ** More about the routes *)
(* ===================================================================== *)

Section RouteFacts.

Context `{External} `{EmailLibrary}.

Lemma form_field_absent name fields :
  form_get name fields = None \/ form_get name fields = Some "" ->
  form_field name fields = None.
Proof. unfold form_field. intros [-> | ->]; reflexivity. Qed.

Lemma page_paths_have_no_extension p :
  In p page_routes -> dict_get (snd (PyStr.splitext p)) content_types = None.
Proof.
  intros Hin. repeat (destruct Hin as [<- | Hin]; [reflexivity |]). destruct Hin.
Qed.

(** X4. A GET on a registered page has no effect (nothing is printed, nothing is
    queued), and its response is cacheable HTML: [Cache-Control] is
    [public, max-age=1200] and [Content-Type] stays [text/html]. *)
Theorem pages_are_cacheable_and_effect_free request w :
  method request = GET ->
  In (path request) page_routes ->
  snd (app request w) = w /\
  Headers.get "Cache-Control" (headers (fst (app request w))) =
    Some "public, max-age=1200" /\
  Headers.get "Content-Type" (headers (fst (app request w))) =
    Some "text/html; charset=utf-8".
Proof.
  intros Hm Hp.
  rewrite app_world, cache_control_of_app, app_headers, router_page by assumption.
  rewrite (page_paths_have_no_extension _ Hp).
  cbn [fst snd status_code headers TemplateResponse]. cbv zeta.
  autorewrite with headers. repeat split.
Qed.

(** X5. A contact submission from which [name], [email] or [message] is
    absent is rejected with status 422 before the handler runs: nothing is
    printed and nothing is queued, whatever the other fields hold. *)
Theorem contact_with_a_missing_field_is_rejected request w field :
  method request = POST ->
  path request = "/contact-us" ->
  field = "name" \/ field = "email" \/ field = "message" ->
  form_get field (form request) = None ->
  status_code (fst (app request w)) = 422 /\ snd (app request w) = w.
Proof.
  intros Hm Hp Hfield Habsent.
  assert (Hnone : form_field field (form request) = None)
    by (apply form_field_absent; left; exact Habsent).
  rewrite app_status, app_world, router_contact_us by assumption.
  unfold contact_us, required_str, required_email.
  destruct Hfield as [-> | [-> | ->]]; rewrite Hnone.
  - destruct (form_field "email" (form request)) as [text |];
      [destruct (validate_email text) |];
      destruct (form_field "message" (form request)); split; reflexivity.
  - destruct (form_field "name" (form request)),
      (form_field "message" (form request)); split; reflexivity.
  - destruct (form_field "name" (form request));
      (destruct (form_field "email" (form request)) as [text |];
       [destruct (validate_email text) |]); split; reflexivity.
Qed.

(** X6. A reservation from which [date] or [time] is absent is rejected with
    status 422 before the handler runs, whatever the party size is. *)
Theorem reservation_without_date_or_time_is_rejected request w :
  method request = POST ->
  path request = "/reserve-table" ->
  form_get "date" (form request) = None \/ form_get "time" (form request) = None ->
  status_code (fst (app request w)) = 422 /\ snd (app request w) = w.
Proof.
  intros Hm Hp Habsent.
  rewrite app_status, app_world, router_reserve_table by assumption.
  unfold reserve_table_route, required_str.
  destruct Habsent as [Hdate | Htime].
  - rewrite (form_field_absent _ _ (or_introl Hdate)).
    destruct (required_int "partysize" (form request)),
      (form_field "time" (form request)); split; reflexivity.
  - rewrite (form_field_absent _ _ (or_introl Htime)).
    destruct (required_int "partysize" (form request)),
      (form_field "date" (form request)); split; reflexivity.
Qed.

(** What a route can do to the world, and with which status. *)
Lemma router_effects request w :
  snd (router request w) = w \/
  (method request = POST /\
   status_code (fst (router request w)) = 302 /\
   exists line task,
     snd (router request w) =
       {| stdout := stdout w ++ [line];
          background_tasks := background_tasks w ++ [task] |} /\
     task_config task = get_email_config /\
     (task_subject task = "Table Reservation Request" \/
      exists name, task_subject task = "Contact Form: " ++ name)).
Proof.
  unfold router. destruct (method request); try (left; reflexivity).
  - destruct (existsb (String.eqb (path request)) page_routes); left; reflexivity.
  - destruct (String.eqb (path request) "/contact-us").
    + unfold contact_us.
      destruct (required_str "name" (form request)) as [name |];
        destruct (required_email "email" (form request)) as [email |];
        destruct (required_str "message" (form request)) as [message |];
        try (left; reflexivity).
      right. rewrite contact_form_run. split; [reflexivity |]. split; [reflexivity |].
      eexists _, _. split; [reflexivity |]. split; [reflexivity |].
      right. exists name. reflexivity.
    + destruct (String.eqb (path request) "/reserve-table"); [| left; reflexivity].
      unfold reserve_table_route.
      destruct (required_int "partysize" (form request)) as [partysize |];
        destruct (required_str "date" (form request)) as [date |];
        destruct (required_str "time" (form request)) as [time |];
        try (left; reflexivity).
      right. rewrite reserve_table_run. split; [reflexivity |]. split; [reflexivity |].
      eexists _, _. split; [reflexivity |]. split; [reflexivity |].
      left. reflexivity.
Qed.

(** X7. For every request, the application either leaves the world as it was, or
    the request is a POST answered with 302 that printed one line and queued
    one email task at the end of the queue: no request queues two emails,
    removes or reorders queued ones, and a request that is not a POST or is
    not answered with the redirect queues nothing. *)
Theorem a_request_queues_one_email_or_changes_nothing request w :
  snd (app request w) = w \/
  (method request = POST /\
   status_code (fst (app request w)) = 302 /\
   exists line task,
     stdout (snd (app request w)) = (stdout w ++ [line])%list /\
     background_tasks (snd (app request w)) = (background_tasks w ++ [task])%list /\
     task_config task = get_email_config /\
     (task_subject task = "Table Reservation Request" \/
      exists name, task_subject task = "Contact Form: " ++ name)).
Proof.
  rewrite app_status, app_world.
  destruct (router_effects request w)
    as [Hsame | (Hm & Hstatus & line & task & Hworld & Hconfig & Hsubject)];
    [left; exact Hsame | right].
  split; [exact Hm |]. split; [exact Hstatus |].
  exists line, task. rewrite Hworld. repeat split; assumption.
Qed.

Lemma form_route_status request w :
  method request = POST ->
  path request = "/contact-us" \/ path request = "/reserve-table" ->
  status_code (fst (router request w)) = 302 \/
  status_code (fst (router request w)) = 422.
Proof.
  intros Hm [Hp | Hp].
  - rewrite router_contact_us by assumption. unfold contact_us.
    destruct (required_str "name" (form request)),
      (required_email "email" (form request)),
      (required_str "message" (form request));
      try (right; reflexivity).
    rewrite contact_form_run. left. reflexivity.
  - rewrite router_reserve_table by assumption. unfold reserve_table_route.
    destruct (required_int "partysize" (form request)),
      (required_str "date" (form request)),
      (required_str "time" (form request));
      try (right; reflexivity).
    rewrite reserve_table_run. left. reflexivity.
Qed.

(** X8. The answer to a form submission, accepted or rejected, is never
    cacheable: a POST to [/contact-us] or [/reserve-table] leaves with
    [Cache-Control: no-store]. *)
Theorem form_responses_are_never_cached request w :
  method request = POST ->
  path request = "/contact-us" \/ path request = "/reserve-table" ->
  Headers.get "Cache-Control" (headers (fst (app request w))) = Some "no-store".
Proof.
  intros Hm Hp. rewrite cache_control_of_app.
  destruct (form_route_status request w Hm Hp) as [-> | ->]; reflexivity.
Qed.


End RouteFacts.

(* ===================================================================== *)
(** ** More about labels and template names *)
(* ===================================================================== *)

Section LabelFacts.

Lemma is_cased_to_lower a : PyStr.is_cased (PyStr.to_lower a) = PyStr.is_cased a.
Proof. destruct a as [[] [] [] [] [] [] [] []]; reflexivity. Qed.

Lemma to_lower_to_lower a : PyStr.to_lower (PyStr.to_lower a) = PyStr.to_lower a.
Proof. destruct a as [[] [] [] [] [] [] [] []]; reflexivity. Qed.

Lemma to_upper_to_lower a : PyStr.to_upper (PyStr.to_lower a) = PyStr.to_upper a.
Proof. destruct a as [[] [] [] [] [] [] [] []]; reflexivity. Qed.

Lemma to_lower_to_upper a : PyStr.to_lower (PyStr.to_upper a) = PyStr.to_lower a.
Proof. destruct a as [[] [] [] [] [] [] [] []]; reflexivity. Qed.

Lemma to_lower_uncased a : PyStr.is_cased a = false -> PyStr.to_lower a = a.
Proof.
  destruct a as [[] [] [] [] [] [] [] []]; intros Hcased;
    first [reflexivity | discriminate Hcased].
Qed.

Lemma title_from_lower previous s :
  PyStr.title_from previous (PyStr.lower s) = PyStr.title_from previous s.
Proof.
  revert previous. induction s as [| a rest IH]; intros previous; [reflexivity |].
  cbn [PyStr.lower PyStr.title_from]. rewrite is_cased_to_lower, !IH.
  destruct (PyStr.is_cased a) eqn:Ecased;
    [| rewrite (to_lower_uncased _ Ecased); reflexivity].
  destruct previous; rewrite ?to_lower_to_lower, ?to_upper_to_lower; reflexivity.
Qed.

Lemma lower_title_from previous s :
  PyStr.lower (PyStr.title_from previous s) = PyStr.lower s.
Proof.
  revert previous. induction s as [| a rest IH]; intros previous; [reflexivity |].
  cbn [PyStr.title_from].
  destruct (PyStr.is_cased a); cbn [PyStr.lower]; rewrite IH; [| reflexivity].
  destruct previous; rewrite ?to_lower_to_lower, ?to_lower_to_upper; reflexivity.
Qed.

(** X10. For keys of ASCII characters, the label of a line is the key with
    nothing but the case of its letters changed, and two keys that differ
    only in letter case give the same line. *)
Theorem labels_depend_on_keys_up_to_letter_case key1 key2 value :
  is_ascii key1 = true ->
  is_ascii key2 = true ->
  PyStr.lower key1 = PyStr.lower key2 ->
  html_line (key1, value) = html_line (key2, value) /\
  PyStr.lower (PyStr.title key1) = PyStr.lower key1.
Proof.
  intros _ _ Hsame. split; [| apply lower_title_from].
  unfold html_line, PyStr.title. cbn [fst snd].
  rewrite <- (title_from_lower false key1), <- (title_from_lower false key2), Hsame.
  reflexivity.
Qed.

Lemma lstrip_fixed s : starts_with_slash s = false -> PyStr.lstrip "/" s = s.
Proof.
  destruct s as [| a rest]; [reflexivity |].
  cbn [starts_with_slash PyStr.lstrip]. rewrite mem_slash. intros ->. reflexivity.
Qed.

Lemma rstrip_fixed s : ends_with_slash s = false -> PyStr.rstrip "/" s = s.
Proof.
  induction s as [| a rest IH]; [reflexivity |].
  cbn [PyStr.rstrip]. rewrite mem_slash. destruct rest as [| b t].
  - cbn [ends_with_slash PyStr.rstrip]. intros ->. reflexivity.
  - intros Hend. change (ends_with_slash (String b t) = false) in Hend.
    rewrite (IH Hend). reflexivity.
Qed.

Lemma rstrip_trailing_slash s : PyStr.rstrip "/" (s ++ "/") = PyStr.rstrip "/" s.
Proof.
  induction s as [| a rest IH]; [reflexivity |].
  cbn [append PyStr.rstrip]. rewrite IH. reflexivity.
Qed.

Lemma strip_trailing_slash s : PyStr.strip "/" (s ++ "/") = PyStr.strip "/" s.
Proof.
  unfold PyStr.strip. induction s as [| a rest IH]; [reflexivity |].
  cbn [append PyStr.lstrip]. destruct (PyStr.mem a "/"); [exact IH |].
  apply (rstrip_trailing_slash (String a rest)).
Qed.

(** X11. The template name is never empty and never begins or ends with a slash,
    whatever the path. *)
Theorem template_name_is_never_empty_or_slashed url_path :
  template_of url_path <> "" /\
  starts_with_slash (template_of url_path) = false /\
  ends_with_slash (template_of url_path) = false.
Proof.
  destruct (strip_slashes url_path) as (l & r & _ & _ & _ & Hstart & Hend).
  unfold template_of. destruct (PyStr.strip "/" url_path) as [| a rest].
  - repeat split. discriminate.
  - cbn [PyStr.or_else]. repeat split; [discriminate | exact Hstart | exact Hend].
Qed.

(** X12. A path made of a leading slash and a name that is not empty and has no
    slash at either end renders the template of that name, with or without a
    trailing slash. *)
Theorem slash_name_renders_name name :
  name <> "" ->
  starts_with_slash name = false ->
  ends_with_slash name = false ->
  template_of ("/" ++ name) = name /\ template_of ("/" ++ name ++ "/") = name.
Proof.
  intros Hne Hstart Hend.
  assert (Hstrip : PyStr.strip "/" ("/" ++ name) = name).
  { unfold PyStr.strip. cbn [append PyStr.lstrip PyStr.mem].
    rewrite Ascii.eqb_refl, (lstrip_fixed _ Hstart). apply rstrip_fixed. exact Hend. }
  unfold template_of. split.
  - rewrite Hstrip. destruct name; [contradiction | reflexivity].
  - change ("/" ++ name ++ "/") with (String "/" (name ++ "/")).
    change (String "/" (name ++ "/")) with (("/" ++ name) ++ "/").
    rewrite strip_trailing_slash, Hstrip. destruct name; [contradiction | reflexivity].
Qed.

End LabelFacts.

(* ===================================================================== *)
(** ** More about extensions *)
(* ===================================================================== *)

Section ExtensionFacts.

Lemma mem_append c a b :
  PyStr.mem c (a ++ b) = (PyStr.mem c a || PyStr.mem c b)%bool.
Proof.
  induction a as [| x a IH]; [reflexivity |].
  cbn [append PyStr.mem]. destruct (Ascii.eqb x c); [reflexivity | exact IH].
Qed.

Lemma rfind_at_absent c s i found :
  PyStr.mem c s = false -> PyStr.rfind_at c s i found = found.
Proof.
  revert i found. induction s as [| x s IH]; intros i found; [reflexivity |].
  cbn [PyStr.mem PyStr.rfind_at]. destruct (Ascii.eqb x c); [discriminate |].
  apply IH.
Qed.

Lemma rfind_at_append c a b i found :
  PyStr.rfind_at c (a ++ b) i found =
  PyStr.rfind_at c b (i + PyStr.len a) (PyStr.rfind_at c a i found).
Proof.
  revert i found. induction a as [| x a IH]; intros i found.
  - cbn [append PyStr.rfind_at]. unfold PyStr.len. cbn [String.length].
    rewrite Z.add_0_r. reflexivity.
  - cbn [append PyStr.rfind_at]. rewrite IH. f_equal.
    unfold PyStr.len. cbn [String.length]. lia.
Qed.

Lemma rfind_at_bound c s i found :
  found < i -> PyStr.rfind_at c s i found < i + PyStr.len s.
Proof.
  revert i found. induction s as [| x s IH]; intros i found Hlt.
  - cbn [PyStr.rfind_at]. unfold PyStr.len. cbn [String.length]. lia.
  - cbn [PyStr.rfind_at].
    assert (Hstep : PyStr.rfind_at c s (i + 1) (if Ascii.eqb x c then i else found)
                    < i + 1 + PyStr.len s)
      by (apply IH; destruct (Ascii.eqb x c); lia).
    unfold PyStr.len in *. cbn [String.length]. lia.
Qed.

(** The last occurrence: [rfind] of a character that is followed by none of
    its kind. *)
Lemma rfind_last c a b :
  PyStr.mem c b = false -> PyStr.rfind c (a ++ String c b) = PyStr.len a.
Proof.
  intros Habsent. unfold PyStr.rfind. rewrite rfind_at_append.
  cbn [PyStr.rfind_at]. rewrite Ascii.eqb_refl, (rfind_at_absent _ _ _ _ Habsent).
  lia.
Qed.

Lemma substring_skip a b n m :
  substring (String.length a + n) m (a ++ b) = substring n m b.
Proof. induction a as [| x a IH]; [reflexivity | exact IH]. Qed.

Lemma substring_nothing s : substring 0 0 s = "".
Proof. destruct s; reflexivity. Qed.

Lemma substring_all s : substring 0 (String.length s) s = s.
Proof. induction s as [| x s IH]; [reflexivity |]. cbn. rewrite IH. reflexivity. Qed.

Lemma substring_prefix a b : substring 0 (String.length a) (a ++ b) = a.
Proof.
  induction a as [| x a IH]; [destruct b; reflexivity |]. cbn. rewrite IH. reflexivity.
Qed.

(** [splitext] on a path whose last component is a name that starts with a
    character other than a dot, followed by a dot and a suffix without dots. *)
Lemma splitext_named directory c stem e :
  c <> "."%char -> c <> "/"%char ->
  PyStr.mem "/" stem = false ->
  PyStr.mem "." e = false -> PyStr.mem "/" e = false ->
  PyStr.splitext (directory ++ "/" ++ String c stem ++ String "." e) =
  (directory ++ "/" ++ String c stem, String "." e).
Proof.
  intros Hdot Hslash Hstem Hedot Heslash.
  set (pre := directory ++ "/" ++ String c stem).
  assert (Hp : directory ++ "/" ++ String c stem ++ String "." e = pre ++ String "." e).
  { unfold pre. rewrite !append_assoc. reflexivity. }
  assert (Hsep : PyStr.rfind "/" (directory ++ "/" ++ String c stem ++ String "." e)
                 = PyStr.len directory).
  { change ("/" ++ String c stem ++ String "." e)
      with (String "/" (String c (stem ++ String "." e))).
    apply rfind_last. cbn [PyStr.mem].
    destruct (Ascii.eqb_spec c "/"); [contradiction |].
    rewrite mem_append, Hstem. cbn [PyStr.mem orb]. exact Heslash. }
  assert (Hext : PyStr.rfind "." (pre ++ String "." e) = PyStr.len pre)
    by (apply rfind_last; exact Hedot).
  assert (Hlen : PyStr.len pre = PyStr.len directory + 2 + PyStr.len stem).
  { unfold pre, PyStr.len. rewrite append_length. cbn [append String.length]. lia. }
  unfold PyStr.splitext. rewrite Hsep. rewrite Hp, Hext.
  replace (PyStr.len directory <? PyStr.len pre) with true
    by (symmetry; apply Z.ltb_lt; unfold PyStr.len in *; lia).
  replace (Z.to_nat (PyStr.len pre - (PyStr.len directory + 1)))
    with (S (String.length stem)) by (unfold PyStr.len in *; lia).
  cbn [PyStr.splitext_scan].
  assert (Hfirst : PyStr.slice (pre ++ String "." e) (PyStr.len directory + 1)
                     (PyStr.len directory + 1 + 1) = String c "").
  { unfold PyStr.slice.
    replace (Z.to_nat (PyStr.len directory + 1 + 1 - (PyStr.len directory + 1)))
      with 1%nat by lia.
    replace (Z.to_nat (PyStr.len directory + 1))
      with (String.length directory + 1)%nat by (unfold PyStr.len; lia).
    rewrite <- Hp. rewrite substring_skip.
    change (substring 1 1 ("/" ++ String c stem ++ String "." e))
      with (String c (substring 0 0 (stem ++ String "." e))).
    rewrite substring_nothing. reflexivity. }
  rewrite Hfirst. cbn [String.eqb].
  destruct (Ascii.eqb_spec c "."); [contradiction |]. cbn [negb].
  f_equal.
  - unfold PyStr.slice. rewrite Z.sub_0_r. cbn [Z.to_nat].
    unfold PyStr.len. rewrite Nat2Z.id. apply substring_prefix.
  - unfold PyStr.slice_from, PyStr.slice.
    replace (Z.to_nat (PyStr.len pre)) with (String.length pre + 0)%nat
      by (unfold PyStr.len; lia).
    replace (Z.to_nat (PyStr.len (pre ++ String "." e) - PyStr.len pre))
      with (String.length (String "." e))
      by (unfold PyStr.len; rewrite append_length; lia).
    rewrite substring_skip. apply substring_all.
Qed.

(** [splitext] on a path whose last component has no dot. *)
Lemma splitext_without_dot directory file :
  PyStr.mem "." file = false -> PyStr.mem "/" file = false ->
  PyStr.splitext (directory ++ "/" ++ file) = (directory ++ "/" ++ file, "").
Proof.
  intros Hdot Hslash.
  assert (Hsep : PyStr.rfind "/" (directory ++ "/" ++ file) = PyStr.len directory)
    by (apply (rfind_last "/" directory file); exact Hslash).
  assert (Hext : PyStr.rfind "." (directory ++ "/" ++ file) < PyStr.len directory).
  { unfold PyStr.rfind. rewrite rfind_at_append.
    change ("/" ++ file) with (String "/" file). cbn [PyStr.rfind_at Ascii.eqb Bool.eqb].
    rewrite (rfind_at_absent _ _ _ _ Hdot).
    apply (rfind_at_bound "." directory 0 (-1)). lia. }
  unfold PyStr.splitext. rewrite Hsep.
  replace (PyStr.len directory <? PyStr.rfind "." (directory ++ "/" ++ file)) with false
    by (symmetry; apply Z.ltb_ge; lia).
  reflexivity.
Qed.

End ExtensionFacts.

Section FontFacts.

Context `{External}.

(** X13. A request for a file [directory/name.ttf], [.woff] or [.woff2], where
    the name has no slash and starts with a character other than a dot, is
    answered with the font content type of its suffix, whatever the directory
    is and whatever the route answered. *)
Theorem font_files_get_the_type_of_their_suffix
    request w directory c stem suffix content_type :
  path request = directory ++ "/" ++ String c stem ++ suffix ->
  c <> "."%char -> c <> "/"%char ->
  PyStr.mem "/" stem = false ->
  dict_get suffix content_types = Some content_type ->
  Headers.get "Content-Type" (headers (fst (app request w))) = Some content_type.
Proof.
  intros Hpath Hdot Hslash Hstem Hdict. rewrite app_headers, Hpath. cbv zeta.
  assert (Hsplit : snd (PyStr.splitext (directory ++ "/" ++ String c stem ++ suffix))
                   = suffix).
  { rewrite content_types_cases in Hdict.
    destruct (String.eqb_spec ".ttf" suffix) as [<- | _];
      [rewrite splitext_named by (assumption || reflexivity); reflexivity |].
    destruct (String.eqb_spec ".woff" suffix) as [<- | _];
      [rewrite splitext_named by (assumption || reflexivity); reflexivity |].
    destruct (String.eqb_spec ".woff2" suffix) as [<- | _];
      [rewrite splitext_named by (assumption || reflexivity); reflexivity |].
    discriminate Hdict. }
  rewrite Hsplit, Hdict. apply get_set_same.
Qed.

(** X14. A request whose path has no dot in its last component passes the font
    correction untouched: the response is the one [add_headers] produced, so
    its [Content-Type] is the one the route set. *)
Theorem paths_without_dot_keep_their_content_type request w directory file :
  path request = directory ++ "/" ++ file ->
  PyStr.mem "." file = false -> PyStr.mem "/" file = false ->
  fst (app request w) = fst (add_headers request router w) /\
  Headers.get "Content-Type" (headers (fst (app request w))) =
  Headers.get "Content-Type" (headers (fst (router request w))).
Proof.
  intros Hpath Hdot Hslash.
  assert (Hnone : dict_get (snd (PyStr.splitext (path request))) content_types = None)
    by (rewrite Hpath, splitext_without_dot by assumption; reflexivity).
  split.
  - unfold app. rewrite fix_mime_type_run, Hnone. reflexivity.
  - rewrite app_headers, Hnone. cbv zeta. autorewrite with headers. reflexivity.
Qed.

End FontFacts.

Section HiddenFiles.

Context `{External}.

Lemma splitext_dotfile directory e :
  PyStr.mem "." e = false -> PyStr.mem "/" e = false ->
  PyStr.splitext (directory ++ "/" ++ String "." e) =
  (directory ++ "/" ++ String "." e, "").
Proof.
  intros Hdot Hslash.
  assert (Hsep : PyStr.rfind "/" (directory ++ "/" ++ String "." e) = PyStr.len directory).
  { apply (rfind_last "/" directory (String "." e)). cbn [PyStr.mem Ascii.eqb Bool.eqb].
    exact Hslash. }
  assert (Hext : PyStr.rfind "." (directory ++ "/" ++ String "." e)
                 = PyStr.len directory + 1).
  { replace (directory ++ "/" ++ String "." e) with ((directory ++ "/") ++ String "." e)
      by (rewrite append_assoc; reflexivity).
    rewrite (rfind_last "." (directory ++ "/") e Hdot).
    unfold PyStr.len. rewrite append_length. cbn [String.length]. lia. }
  unfold PyStr.splitext. rewrite Hsep, Hext.
  replace (PyStr.len directory <? PyStr.len directory + 1) with true
    by (symmetry; apply Z.ltb_lt; lia).
  replace (Z.to_nat (PyStr.len directory + 1 - (PyStr.len directory + 1))) with O by lia.
  reflexivity.
Qed.

(** X15. A file whose whole name is a font suffix, such as [/static/.woff2], has
    no extension for [splitext]: its response is not given a font content
    type and leaves as [add_headers] produced it. *)
Theorem files_named_by_a_bare_suffix_are_not_corrected
    request w directory suffix content_type :
  path request = directory ++ "/" ++ suffix ->
  dict_get suffix content_types = Some content_type ->
  snd (PyStr.splitext (path request)) = "" /\
  fst (app request w) = fst (add_headers request router w).
Proof.
  intros Hpath Hdict.
  assert (Hsplit : snd (PyStr.splitext (path request)) = "").
  { rewrite Hpath. rewrite content_types_cases in Hdict.
    destruct (String.eqb_spec ".ttf" suffix) as [<- | _];
      [rewrite splitext_dotfile by reflexivity; reflexivity |].
    destruct (String.eqb_spec ".woff" suffix) as [<- | _];
      [rewrite splitext_dotfile by reflexivity; reflexivity |].
    destruct (String.eqb_spec ".woff2" suffix) as [<- | _];
      [rewrite splitext_dotfile by reflexivity; reflexivity |].
    discriminate Hdict. }
  split; [exact Hsplit |].
  unfold app. rewrite fix_mime_type_run, Hsplit. reflexivity.
Qed.

End HiddenFiles.

(* ===================================================================== *)
(** ** The further theorems at concrete requests *)
(* ===================================================================== *)

(** The redirect of a contact submission keeps its [Location]. *)
Lemma middleware_passes_the_rest_through_witness :
  let request := Demo.post "/contact-us"
                   [("name", "Ann"); ("email", "ann@example.com"); ("message", "Hello")] in
  Headers.get "Location" (headers (fst (@app Demo.external request fresh))) =
  Headers.get "Location" (headers (fst (@router Demo.external request fresh))).
Proof.
  cbv zeta.
  refine (proj2 (proj2 (@middleware_passes_the_rest_through Demo.external
                          (Demo.post "/contact-us"
                             [("name", "Ann"); ("email", "ann@example.com");
                              ("message", "Hello")])
                          fresh "Location" _ _ _ _))); vm_compute; discriminate.
Defined.

(** [GET /gallery] on the demo deployment. *)
Lemma pages_are_cacheable_and_effect_free_witness :
  In (path (Demo.get "/gallery")) (@page_routes) /\
  snd (@app Demo.external (Demo.get "/gallery") fresh) = fresh /\
  Headers.get "Cache-Control" (headers (fst (@app Demo.external (Demo.get "/gallery") fresh)))
    = Some "public, max-age=1200".
Proof.
  assert (Hin : In (path (Demo.get "/gallery")) page_routes) by (simpl; tauto).
  destruct (@pages_are_cacheable_and_effect_free Demo.external (Demo.get "/gallery") fresh
              eq_refl Hin) as (Hworld & Hcache & _).
  split; [exact Hin |]. split; [exact Hworld | exact Hcache].
Defined.

(** A contact submission without a message. *)
Lemma contact_with_a_missing_field_is_rejected_witness :
  let request := Demo.post "/contact-us"
                   [("name", "Ann"); ("email", "ann@example.com")] in
  @form_get "message" (form request) = None /\
  status_code (fst (@app Demo.external request fresh)) = 422 /\
  snd (@app Demo.external request fresh) = fresh.
Proof.
  cbv zeta. split; [reflexivity |].
  refine (@contact_with_a_missing_field_is_rejected Demo.external
            (Demo.post "/contact-us" [("name", "Ann"); ("email", "ann@example.com")])
            fresh "message" eq_refl eq_refl _ eq_refl).
  right. right. reflexivity.
Defined.

(** A reservation without a [time] field. *)
Lemma reservation_without_date_or_time_is_rejected_witness :
  let request := Demo.post "/reserve-table" [("partysize", "4"); ("date", "25/12/2024")] in
  status_code (fst (@app Demo.external request fresh)) = 422 /\
  snd (@app Demo.external request fresh) = fresh.
Proof.
  cbv zeta.
  refine (@reservation_without_date_or_time_is_rejected Demo.external
            (Demo.post "/reserve-table" [("partysize", "4"); ("date", "25/12/2024")])
            fresh eq_refl eq_refl _).
  right. reflexivity.
Defined.

(** A rejected reservation is not cached either. *)
Lemma form_responses_are_never_cached_witness :
  Headers.get "Cache-Control"
    (headers (fst (@app Demo.external (Demo.post "/reserve-table" []) fresh))) =
  Some "no-store".
Proof.
  refine (@form_responses_are_never_cached Demo.external (Demo.post "/reserve-table" [])
            fresh eq_refl _).
  right. reflexivity.
Defined.


(** The keys [PARTY size] and [party SIZE] give one label. *)
Lemma labels_depend_on_keys_up_to_letter_case_witness :
  html_line ("PARTY size", PyInt 4) = html_line ("party SIZE", PyInt 4).
Proof.
  exact (proj1 (labels_depend_on_keys_up_to_letter_case "PARTY size" "party SIZE"
                  (PyInt 4) eq_refl eq_refl eq_refl)).
Defined.

(** A nested name. *)
Lemma slash_name_renders_name_witness :
  template_of "/menu/drinks" = "menu/drinks" /\ template_of "/menu/drinks/" = "menu/drinks".
Proof.
  refine (slash_name_renders_name "menu/drinks" _ eq_refl eq_refl). discriminate.
Defined.

(** A font in a directory whose name has a dot. *)
Lemma font_files_get_the_type_of_their_suffix_witness :
  Headers.get "Content-Type"
    (headers (fst (@app Demo.external (Demo.get "/static/v1.2/lounge.ttf") fresh))) =
  Some "font/ttf".
Proof.
  refine (@font_files_get_the_type_of_their_suffix Demo.external
            (Demo.get "/static/v1.2/lounge.ttf") fresh "/static/v1.2" "l" "ounge" ".ttf"
            "font/ttf" eq_refl _ _ eq_refl eq_refl); discriminate.
Defined.

(** A stylesheet directory: no dot after the last slash. *)
Lemma paths_without_dot_keep_their_content_type_witness :
  fst (@app Demo.external (Demo.get "/static/v1.2/fonts") fresh) =
  fst (add_headers (Demo.get "/static/v1.2/fonts") (@router Demo.external) fresh).
Proof.
  exact (proj1 (@paths_without_dot_keep_their_content_type Demo.external
                  (Demo.get "/static/v1.2/fonts") fresh "/static/v1.2" "fonts"
                  eq_refl eq_refl eq_refl)).
Defined.

(** The file [/static/.woff2]. *)
Lemma files_named_by_a_bare_suffix_are_not_corrected_witness :
  snd (PyStr.splitext (path (Demo.get "/static/.woff2"))) = "" /\
  fst (@app Demo.external (Demo.get "/static/.woff2") fresh) =
  fst (add_headers (Demo.get "/static/.woff2") (@router Demo.external) fresh).
Proof.
  exact (@files_named_by_a_bare_suffix_are_not_corrected Demo.external
           (Demo.get "/static/.woff2") fresh "/static" ".woff2" "font/woff2"
           eq_refl eq_refl).
Defined.
